(** * pkg/catalogue/input.go: reading, classifying and compiling an input

    A shallow embedding of [ReadInput], [Input.Compile] and [Input.getType]
    together with the small parts of the libraries they call
    (github.com/pkg/errors, fmt, gojsonschema's [Result]).

    Go values are rendered as follows.
    - A pointer or an interface value that may be nil is an [option].
    - [int] is [Z]; [len] of a slice is the length of a list as a [Z].
    - A function with visible effects runs in the monad [M] below: it threads
      the receiver object, appends to a log of the calls made to
      collaborators, and stops at a Go [return] or at a run-time panic. *)

From Stdlib Require Import ZArith List String Ascii Bool Lia.
From Stdlib Require Import DecimalString DecimalPos DecimalZ.
Import ListNotations.

Local Open Scope string_scope.
Local Open Scope Z_scope.

(** [len] of a slice. *)
Definition len {A : Type} (l : list A) : Z := Z.of_nat (List.length l).

(* ------------------------------------------------------------------ *)
(** ** github.com/pkg/errors *)

Module errors.

(** Error values.  [fundamental] is what [New] and [Errorf] build,
    [withMessage] and [withStack] are the two layers [Wrap] adds, and
    [foreign] stands for an error made by any other package, of which only
    the message is observable.  Recorded program counters are left out. *)
Inductive error : Type :=
| foreign (msg : string)
| fundamental (msg : string)
| withMessage (cause : error) (msg : string)
| withStack (inner : error).

Definition New (message : string) : error := fundamental message.

(** [Wrap] returns nil when [err] is nil. *)
Definition Wrap (err : option error) (message : string) : option error :=
  match err with
  | None => None
  | Some e => Some (withStack (withMessage e message))
  end.

(** The [Error()] method. *)
Fixpoint Error (e : error) : string :=
  match e with
  | foreign m => m
  | fundamental m => m
  | withMessage c m => m ++ ": " ++ Error c
  | withStack w => Error w
  end.

(** The [Unwrap()] method, one link of the chain. *)
Definition Unwrap (e : error) : option error :=
  match e with
  | withMessage c _ => Some c
  | withStack w => Some w
  | _ => None
  end.

(** [Cause] follows the chain down to the first error that has no cause. *)
Fixpoint Cause (e : error) : error :=
  match e with
  | withMessage c _ => Cause c
  | withStack w => Cause w
  | _ => e
  end.

(** The chain of an error: itself, then what [Unwrap] gives, repeatedly. *)
Fixpoint chain (e : error) : list error :=
  e :: match e with
       | withMessage c _ => chain c
       | withStack w => chain w
       | _ => []
       end.

End errors.
Import errors.

(* ------------------------------------------------------------------ *)
(** ** fmt *)

Module fmt.

(** An operand of [Sprintf]: an [int], or a value printed through its
    [String()] method, given here by the text that method returns. *)
Inductive arg : Type :=
| Int (n : Z)
| Stringer (s : string).

(** Base-10 text of an [int]. *)
Definition itoa (n : Z) : string := NilZero.string_of_int (Z.to_int n).

(** [Sprintf] for the verbs [%d] and [%s] (and [%%]); a verb with no
    operand left prints the [MISSING] marker, a verb applied to an operand
    of the other kind prints the bad-verb marker. *)
Fixpoint Sprintf (format : string) (args : list arg) : string :=
  match format with
  | EmptyString => EmptyString
  | String "%" (String "d" rest) =>
      match args with
      | Int n :: args' => itoa n ++ Sprintf rest args'
      | Stringer s :: args' => "%!d(string=" ++ s ++ ")" ++ Sprintf rest args'
      | [] => "%!d(MISSING)" ++ Sprintf rest []
      end
  | String "%" (String "s" rest) =>
      match args with
      | Stringer s :: args' => s ++ Sprintf rest args'
      | Int n :: args' => "%!s(int=" ++ itoa n ++ ")" ++ Sprintf rest args'
      | [] => "%!s(MISSING)" ++ Sprintf rest []
      end
  | String "%" (String "%" rest) => String "%" (Sprintf rest args)
  | String c rest => String c (Sprintf rest args)
  end.

End fmt.

(** [errors.Errorf] formats with [fmt.Sprintf] and builds a [fundamental]. *)
Definition Errorf (format : string) (args : list fmt.arg) : error :=
  fundamental (fmt.Sprintf format args).

(* ------------------------------------------------------------------ *)
(** ** gojsonschema: the result of a validation *)

Module gojsonschema.

(** [Result] holds the violations found, in the order of discovery, and a
    score.  [Valid] is defined from the list, as the library does. *)
Record Result {ResultError : Type} : Type := {
  result_errors : list ResultError;
  result_score : Z
}.
Arguments Result : clear implicits.

Definition Valid {RE : Type} (v : Result RE) : bool :=
  len (result_errors v) =? 0.

Definition Errors {RE : Type} (v : Result RE) : list RE :=
  result_errors v.

End gojsonschema.

(* ------------------------------------------------------------------ *)
(** ** Types declared in other packages *)

(** The declarations of [quarks.Info], [templates.Template],
    [workflows.Workflow], their compiled forms and [Catalogue] are outside
    this file.  What input.go reads of them is kept concrete in the records
    below; everything else is a parameter. *)
Class ExternalTypes : Type := {
  quarks_Info : Type;
  DNSRequest : Type;
  HTTPRequest : Type;
  RawHTTPRequest : Type;
  TemplateRest : Type;
  LogicStep : Type;
  WorkflowRest : Type;
  templates_CompiledTemplate : Type;
  workflows_CompiledWorkflow : Type;
  Catalogue : Type;
  File : Type;
  RawDefinition : Type;
  JSONLoader : Type;
  ResultError : Type;
  zero_Info : quarks_Info;
  zero_TemplateRest : TemplateRest;
  zero_WorkflowRest : WorkflowRest
}.

Section Types.
Context {T : ExternalTypes}.

(** [templates.Template]: the three request collections and the rest. *)
Record templates_Template : Type := {
  DNS : list DNSRequest;
  HTTP : list HTTPRequest;
  HTTPRequests : list RawHTTPRequest;
  template_rest : TemplateRest
}.

(** [workflows.Workflow]: the logic collection and the rest. *)
Record workflows_Workflow : Type := {
  Logic : list LogicStep;
  workflow_rest : WorkflowRest
}.

(** [Input]: both structures are embedded by value. *)
Record Input : Type := {
  ID : string;
  Info : quarks_Info;
  Template : templates_Template;
  Workflow : workflows_Workflow
}.

(** [&Input{}]. *)
Definition zero_Input : Input :=
  {| ID := "";
     Info := zero_Info;
     Template := {| DNS := []; HTTP := []; HTTPRequests := [];
                    template_rest := zero_TemplateRest |};
     Workflow := {| Logic := []; workflow_rest := zero_WorkflowRest |} |}.

(** [type Type int] with its two constants. *)
Definition InputType : Type := Z.
Definition TemplateInputType : InputType := 0.
Definition WorkflowInputType : InputType := 1.

(** [CompiledInput]: the tag and the two embedded pointers. *)
Record CompiledInput : Type := {
  Type_ : InputType;
  CompiledTemplate : option templates_CompiledTemplate;
  CompiledWorkflow : option workflows_CompiledWorkflow
}.

(** [templates.CompileOptions] and [workflows.CompileOptions]. *)
Record templates_CompileOptions : Type := {
  t_ID : string;
  t_Info : quarks_Info;
  t_Path : string;
  t_Resolver : Catalogue
}.

Record workflows_CompileOptions : Type := {
  w_ID : string;
  w_Info : quarks_Info;
  w_Path : string;
  w_Resolver : Catalogue;
  w_Compiler : Catalogue
}.

(** [getType] returns the type of input based on its attributes. *)
Definition getType (i : Input) : InputType * bool :=
  if (len (DNS (Template i)) >? 0)
     || (len (HTTP (Template i)) >? 0)
     || (len (HTTPRequests (Template i)) >? 0)
  then (TemplateInputType, true)
  else if len (Logic (Workflow i)) >? 0
  then (WorkflowInputType, true)
  else (-1, false).

End Types.

(* ------------------------------------------------------------------ *)
(** ** Control flow: receiver state, call log, return and panic *)

(** Run-time panics that the modelled statements can raise. *)
Inductive Panic : Type :=
| NilDereference
| IndexOutOfRange.

(** How a function call ends. *)
Inductive Outcome (R : Type) : Type :=
| Returned (r : R)
| Panicked (p : Panic).
Arguments Returned {R} r.
Arguments Panicked {R} p.

Section Monad.
Context {S E R : Type}.

(** A statement maps the receiver state and the log so far to the new
    state and log, and either goes on with a value ([inl]) or leaves the
    function ([inr]). *)
Definition M (A : Type) : Type :=
  S -> list E -> (A + Outcome R) * S * list E.

Definition ret {A} (a : A) : M A := fun s t => (inl a, s, t).

Definition bind {A B} (m : M A) (k : A -> M B) : M B :=
  fun s t =>
    match m s t with
    | (inl a, s', t') => k a s' t'
    | (inr o, s', t') => (inr o, s', t')
    end.

(** Go's [return]. *)
Definition return_ {A} (r : R) : M A := fun s t => (inr (Returned r), s, t).

Definition panic {A} (p : Panic) : M A := fun s t => (inr (Panicked p), s, t).

Definition emit (e : E) : M unit := fun s t => (inl tt, s, (t ++ [e])%list).

Definition get : M S := fun s t => (inl s, s, t).

(** [defer d] in front of [body]: [d] runs when [body] is left, whichever
    way, and the way it was left is kept. *)
Definition defer {A} (d : M unit) (body : M A) : M A :=
  fun s t =>
    match body s t with
    | (o, s', t') =>
        match d s' t' with
        | (_, s'', t'') => (o, s'', t'')
        end
    end.

(** A whole call, from state [s] and an empty log. *)
Definition run (m : M R) (s : S) : Outcome R * S * list E :=
  match m s [] with
  | (inl r, s', t') => (Returned r, s', t')
  | (inr o, s', t') => (o, s', t')
  end.

End Monad.
Arguments M : clear implicits.

Notation "x <- m ;; k" := (bind m (fun x => k))
  (at level 61, m at next level, right associativity).
Notation "' pat <- m ;; k" := (bind m (fun x => match x with pat => k end))
  (at level 61, pat pattern, m at next level, right associativity).
Notation "m ;; k" := (bind m (fun _ => k))
  (at level 61, right associativity).

(** [err != nil], [ptr != nil]. *)
Definition nonnil {A : Type} (o : option A) : bool :=
  match o with Some _ => true | None => false end.

(* ------------------------------------------------------------------ *)
(** ** The collaborators of input.go *)

Section Catalogue.
Context {T : ExternalTypes}.

(** The functions input.go calls and the package variable it reads.  A Go
    result pair [(x, err)] is a pair here, both sides possibly nil.  The
    functions are total: a collaborator that panics or does not return is
    outside the model.  Operands are passed by value.  A sub-compiler is a
    method of the embedded structure and may be declared on a pointer
    receiver, so it also returns the structure as it leaves it. *)
Class Collaborators : Type := {
  os_Open : string -> File * option error;
  ioutil_ReadAll : File -> list Init.Byte.byte * option error;
  unmarshalForValidation :
    list Init.Byte.byte -> option RawDefinition ->
    option RawDefinition * option error;
  schemaLoader : JSONLoader;
  NewGoLoader : option RawDefinition -> JSONLoader;
  gojsonschema_Validate :
    JSONLoader -> JSONLoader ->
    option (gojsonschema.Result ResultError) * option error;
  ResultError_String : ResultError -> string;
  yaml_Unmarshal : list Init.Byte.byte -> Input -> Input * option error;
  Template_Compile :
    templates_Template -> templates_CompileOptions ->
    templates_Template * (option templates_CompiledTemplate * option error);
  Workflow_Compile :
    workflows_Workflow -> workflows_CompileOptions ->
    workflows_Workflow * (option workflows_CompiledWorkflow * option error)
}.

(** The calls that are logged, with their operands. *)
Inductive Event : Type :=
| call_Open (path : string)
| call_ReadAll (file : File)
| call_Close (file : File)
| call_unmarshalForValidation (data : list Init.Byte.byte)
| call_Validate (document : JSONLoader)
| call_yaml_Unmarshal (data : list Init.Byte.byte)
| new_CompiledInput (compiled : CompiledInput)
| call_Template_Compile (options : templates_CompileOptions)
| call_Workflow_Compile (options : workflows_CompileOptions).

Context {W : Collaborators}.

(** *** ReadInput *)

Definition ReadInput_result : Type := option Input * option error.

(** [ReadInput] reads a template input from disk returning a validated
    version of the template. *)
Definition ReadInput (path : string) : M unit Event ReadInput_result ReadInput_result :=
  emit (call_Open path) ;;
  let '(file, err) := os_Open path in
  if nonnil err then return_ (None, err) else
  defer (emit (call_Close file)) (
    emit (call_ReadAll file) ;;
    let '(data, err) := ioutil_ReadAll file in
    if nonnil err then return_ (None, err) else

    emit (call_unmarshalForValidation data) ;;
    let '(validationInput, err) := unmarshalForValidation data None in
    if nonnil err then return_ (None, err) else

    emit (call_Validate (NewGoLoader validationInput)) ;;
    let '(result, err) :=
      gojsonschema_Validate schemaLoader (NewGoLoader validationInput) in
    if nonnil err then return_ (None, err) else

    match result with
    | None => panic NilDereference
    | Some result =>
        if negb (gojsonschema.Valid result) then
          let errs := gojsonschema.Errors result in
          match nth_error errs 0 with
          | None => panic IndexOutOfRange
          | Some errs0 =>
              return_ (None,
                       Some (Errorf "%d errors in template: %s, skipping"
                               [fmt.Int (len errs);
                                fmt.Stringer (ResultError_String errs0)]))
          end
        else
          emit (call_yaml_Unmarshal data) ;;
          let '(input, err) := yaml_Unmarshal data zero_Input in
          if nonnil err then return_ (None, err) else
          return_ (Some input, None)
    end).

(** *** Compile *)

Definition Compile_result : Type := option CompiledInput * option error.

(** The two method calls on the embedded structures of the receiver. *)
Definition Template_Compile_on_receiver (options : templates_CompileOptions)
  : M Input Event Compile_result
      (option templates_CompiledTemplate * option error) :=
  fun i t =>
    let '(tpl, r) := Template_Compile (Template i) options in
    (inl r,
     {| ID := ID i; Info := Info i; Template := tpl; Workflow := Workflow i |},
     (t ++ [call_Template_Compile options])%list).

Definition Workflow_Compile_on_receiver (options : workflows_CompileOptions)
  : M Input Event Compile_result
      (option workflows_CompiledWorkflow * option error) :=
  fun i t =>
    let '(wf, r) := Workflow_Compile (Workflow i) options in
    (inl r,
     {| ID := ID i; Info := Info i; Template := Template i; Workflow := wf |},
     (t ++ [call_Workflow_Compile options])%list).

(** [Compile] returns the compiled version of the input. *)
Definition Compile (catalog : Catalogue) (path : string)
  : M Input Event Compile_result Compile_result :=
  i <- get ;;
  let '(Type', ok) := getType i in
  if negb ok then
    return_ (None, Some (New "invalid template/workflow supplied"))
  else
  let compiled :=
    {| Type_ := Type'; CompiledTemplate := None; CompiledWorkflow := None |} in
  emit (new_CompiledInput compiled) ;;
  compiled <-
    (if Type' =? TemplateInputType then
       i <- get ;;
       '(compiledTemplate, err) <-
         Template_Compile_on_receiver
           {| t_ID := ID i; t_Info := Info i; t_Path := path;
              t_Resolver := catalog |} ;;
       if nonnil err then
         return_ (None, Wrap err "could not compile template")
       else
         ret {| Type_ := Type_ compiled;
                CompiledTemplate := compiledTemplate;
                CompiledWorkflow := CompiledWorkflow compiled |}
     else ret compiled) ;;
  compiled <-
    (if Type' =? WorkflowInputType then
       i <- get ;;
       '(compiledWorkflow, err) <-
         Workflow_Compile_on_receiver
           {| w_ID := ID i; w_Info := Info i; w_Path := path;
              w_Resolver := catalog; w_Compiler := catalog |} ;;
       if nonnil err then
         return_ (None, Wrap err "could not compile workflow")
       else
         ret {| Type_ := Type_ compiled;
                CompiledTemplate := CompiledTemplate compiled;
                CompiledWorkflow := compiledWorkflow |}
     else ret compiled) ;;
  return_ (Some compiled, None).

End Catalogue.


(* ------------------------------------------------------------------ *)
(** ** Whole calls and what a caller can observe of them *)

Section Calls.
Context {T : ExternalTypes} {W : Collaborators}.

(** [ReadInput(path)]: how the call ends and the calls it made. *)
Definition ReadInput_call (path : string)
  : Outcome ReadInput_result * list Event :=
  match run (ReadInput path) tt with
  | (o, _, t) => (o, t)
  end.

(** [i.Compile(catalog, path)]: how the call ends, the receiver as the call
    leaves it, and the calls it made. *)
Definition Compile_call (i : Input) (catalog : Catalogue) (path : string)
  : Outcome Compile_result * Input * list Event :=
  run (Compile catalog path) i.

Definition Compile_outcome (i : Input) (catalog : Catalogue) (path : string)
  : Outcome Compile_result :=
  fst (fst (Compile_call i catalog path)).

Definition Compile_receiver (i : Input) (catalog : Catalogue) (path : string)
  : Input :=
  snd (fst (Compile_call i catalog path)).

Definition Compile_log (i : Input) (catalog : Catalogue) (path : string)
  : list Event :=
  snd (Compile_call i catalog path).

(** The options handed to the two sub-compilers. *)
Definition template_options (i : Input) (catalog : Catalogue) (path : string)
  : templates_CompileOptions :=
  {| t_ID := ID i; t_Info := Info i; t_Path := path; t_Resolver := catalog |}.

Definition workflow_options (i : Input) (catalog : Catalogue) (path : string)
  : workflows_CompileOptions :=
  {| w_ID := ID i; w_Info := Info i; w_Path := path;
     w_Resolver := catalog; w_Compiler := catalog |}.

(** Exactly one of the two payload pointers is non-nil. *)
Definition exactly_one_populated (c : CompiledInput) : bool :=
  xorb (nonnil (CompiledTemplate c)) (nonnil (CompiledWorkflow c)).

(** A logged event is a call of a sub-compiler. *)
Definition is_subcompiler_call (e : Event) : bool :=
  match e with
  | call_Template_Compile _ | call_Workflow_Compile _ => true
  | _ => false
  end.

(** A condition on the sub-compilers, whose code is in other packages:
    the method leaves its receiver as it found it. *)
Definition receiver_read_only : Prop :=
  (forall tpl o, fst (Template_Compile tpl o) = tpl) /\
  (forall wf o, fst (Workflow_Compile wf o) = wf).

End Calls.

(** [s] occurs inside [msg]. *)
Definition includes (msg s : string) : Prop :=
  exists before after, msg = before ++ s ++ after.

(** The count a reader finds at the head of a message: the text up to the
    first blank, read as a base-10 number. *)
Fixpoint first_word (s : string) : string :=
  match s with
  | EmptyString => EmptyString
  | String c rest =>
      if Ascii.eqb c " " then EmptyString else String c (first_word rest)
  end.

Definition reported_count (msg : string) : option Z :=
  option_map Z.of_int (NilZero.int_of_string (first_word msg)).

(* ------------------------------------------------------------------ *)
(** ** A small concrete world

    Files are told apart by name, and a file's content is its name, so that
    every path through the two functions can be run. *)

Module Demo.

#[export] Instance types : ExternalTypes := {|
  quarks_Info := string;
  DNSRequest := string;
  HTTPRequest := string;
  RawHTTPRequest := string;
  TemplateRest := unit;
  LogicStep := string;
  WorkflowRest := unit;
  templates_CompiledTemplate := Z;
  workflows_CompiledWorkflow := Z;
  Catalogue := bool;
  File := string;
  RawDefinition := string;
  JSONLoader := option string;
  ResultError := string;
  zero_Info := "";
  zero_TemplateRest := tt;
  zero_WorkflowRest := tt
|}.

Definition http_template : Input :=
  {| ID := "t1"; Info := "x";
     Template := {| DNS := []; HTTP := ["GET /"]; HTTPRequests := [];
                    template_rest := tt |};
     Workflow := {| Logic := []; workflow_rest := tt |} |}.

Definition workflow : Input :=
  {| ID := "w1"; Info := "x";
     Template := {| DNS := []; HTTP := []; HTTPRequests := [];
                    template_rest := tt |};
     Workflow := {| Logic := ["t1"]; workflow_rest := tt |} |}.

Definition both_shapes : Input :=
  {| ID := "b1"; Info := "x";
     Template := {| DNS := ["A example.com"]; HTTP := []; HTTPRequests := [];
                    template_rest := tt |};
     Workflow := {| Logic := ["t1"]; workflow_rest := tt |} |}.

Definition neither_shape : Input :=
  {| ID := "n1"; Info := "x";
     Template := {| DNS := []; HTTP := []; HTTPRequests := [];
                    template_rest := tt |};
     Workflow := {| Logic := []; workflow_rest := tt |} |}.

Definition no_such_file : error :=
  foreign "open missing.yaml: no such file or directory".
Definition read_failure : error := foreign "read unreadable.yaml: is a directory".
Definition parse_failure : error := foreign "yaml: line 1: did not find expected key".
Definition decode_failure : error := foreign "yaml: unmarshal errors".
Definition compile_failure : error := foreign "no requests defined".

Definition two_violations : gojsonschema.Result string :=
  {| gojsonschema.result_errors :=
       ["(root): id is required"; "(root): info is required"];
     gojsonschema.result_score := 0 |}.

Definition no_violation : gojsonschema.Result string :=
  {| gojsonschema.result_errors := []; gojsonschema.result_score := 1 |}.

#[export] Instance world : Collaborators := {|
  os_Open path :=
    if String.eqb path "missing.yaml" then (path, Some no_such_file)
    else (path, None);
  ioutil_ReadAll file :=
    if String.eqb file "unreadable.yaml" then ([], Some read_failure)
    else (list_byte_of_string file, None);
  unmarshalForValidation data into :=
    if String.eqb (string_of_list_byte data) "malformed.yaml"
    then (into, Some parse_failure)
    else (Some (string_of_list_byte data), None);
  schemaLoader := None;
  NewGoLoader raw := raw;
  gojsonschema_Validate schema document :=
    match document with
    | Some "invalid.yaml" => (Some two_violations, None)
    | _ => (Some no_violation, None)
    end;
  ResultError_String e := e;
  yaml_Unmarshal data into :=
    if String.eqb (string_of_list_byte data) "undecodable.yaml"
    then (into, Some decode_failure)
    else if String.eqb (string_of_list_byte data) "workflow.yaml"
    then (workflow, None)
    else (http_template, None);
  Template_Compile tpl o :=
    if String.eqb (t_Path o) "broken" then (tpl, (None, Some compile_failure))
    else (tpl, (Some (len (HTTP tpl)), None));
  Workflow_Compile wf o :=
    if String.eqb (w_Path o) "broken" then (wf, (None, Some compile_failure))
    else (wf, (Some (len (Logic wf)), None))
|}.

End Demo.

(* ------------------------------------------------------------------ *)
(** ** Reading the logs, and inputs that differ in one embedded part *)

Section Observers.
Context {T : ExternalTypes}.

(** A logged event is the deferred [file.Close()]. *)
Definition is_close_call (e : Event) : bool :=
  match e with
  | call_Close _ => true
  | _ => false
  end.

(** How many events of a log satisfy [p]. *)
Definition count_calls (p : Event -> bool) (log : list Event) : nat :=
  List.length (filter p log).

(** The input [i] with another embedded workflow. *)
Definition with_Workflow (i : Input) (wf : workflows_Workflow) : Input :=
  {| ID := ID i; Info := Info i; Template := Template i; Workflow := wf |}.

(** The input [i] with another embedded template. *)
Definition with_Template (i : Input) (tpl : templates_Template) : Input :=
  {| ID := ID i; Info := Info i; Template := tpl; Workflow := Workflow i |}.

End Observers.

(** The concrete world again, with a schema that cannot be loaded: the
    validator fails on every document. *)
Module DemoBrokenSchema.

Definition schema_failure : error := foreign "schema: unexpected end of JSON input".

Definition world : @Collaborators Demo.types := {|
  os_Open := @os_Open Demo.types Demo.world;
  ioutil_ReadAll := @ioutil_ReadAll Demo.types Demo.world;
  unmarshalForValidation := @unmarshalForValidation Demo.types Demo.world;
  schemaLoader := @schemaLoader Demo.types Demo.world;
  NewGoLoader := @NewGoLoader Demo.types Demo.world;
  gojsonschema_Validate schema document := (None, Some schema_failure);
  ResultError_String := @ResultError_String Demo.types Demo.world;
  yaml_Unmarshal := @yaml_Unmarshal Demo.types Demo.world;
  Template_Compile := @Template_Compile Demo.types Demo.world;
  Workflow_Compile := @Workflow_Compile Demo.types Demo.world
|}.

End DemoBrokenSchema.

(** The kinds of call [ReadInput] makes, one test per collaborator. *)
Section CallKinds.
Context {T : ExternalTypes}.

Definition is_open_call (e : Event) : bool :=
  match e with call_Open _ => true | _ => false end.

Definition is_read_call (e : Event) : bool :=
  match e with call_ReadAll _ => true | _ => false end.

Definition is_parse_call (e : Event) : bool :=
  match e with call_unmarshalForValidation _ => true | _ => false end.

Definition is_validate_call (e : Event) : bool :=
  match e with call_Validate _ => true | _ => false end.

Definition is_decode_call (e : Event) : bool :=
  match e with call_yaml_Unmarshal _ => true | _ => false end.

End CallKinds.

(** The concrete world again, with sub-compilers that return a nil payload
    together with a nil error. *)
Module DemoNilPayload.

Definition world : @Collaborators Demo.types := {|
  os_Open := @os_Open Demo.types Demo.world;
  ioutil_ReadAll := @ioutil_ReadAll Demo.types Demo.world;
  unmarshalForValidation := @unmarshalForValidation Demo.types Demo.world;
  schemaLoader := @schemaLoader Demo.types Demo.world;
  NewGoLoader := @NewGoLoader Demo.types Demo.world;
  gojsonschema_Validate := @gojsonschema_Validate Demo.types Demo.world;
  ResultError_String := @ResultError_String Demo.types Demo.world;
  yaml_Unmarshal := @yaml_Unmarshal Demo.types Demo.world;
  Template_Compile tpl o := (tpl, (None, None));
  Workflow_Compile wf o := (wf, (None, None))
|}.

End DemoNilPayload.

(** The concrete world again, with a template sub-compiler declared on a
    pointer receiver that consumes the requests of the template it
    compiles. *)
Module DemoConsumingCompiler.

Definition world : @Collaborators Demo.types := {|
  os_Open := @os_Open Demo.types Demo.world;
  ioutil_ReadAll := @ioutil_ReadAll Demo.types Demo.world;
  unmarshalForValidation := @unmarshalForValidation Demo.types Demo.world;
  schemaLoader := @schemaLoader Demo.types Demo.world;
  NewGoLoader := @NewGoLoader Demo.types Demo.world;
  gojsonschema_Validate := @gojsonschema_Validate Demo.types Demo.world;
  ResultError_String := @ResultError_String Demo.types Demo.world;
  yaml_Unmarshal := @yaml_Unmarshal Demo.types Demo.world;
  Template_Compile tpl o :=
    ({| DNS := []; HTTP := []; HTTPRequests := [];
        template_rest := template_rest tpl |},
     (Some (len (DNS tpl) + len (HTTP tpl) + len (HTTPRequests tpl)), None));
  Workflow_Compile := @Workflow_Compile Demo.types Demo.world
|}.

End DemoConsumingCompiler.

(* ------------------------------------------------------------------ *)
(** ** Facts about the library parts *)

Lemma len_pos_iff {A : Type} (l : list A) : (len l >? 0) = true <-> l <> [].
Proof.
  unfold len. destruct l as [|a l]; simpl.
  - split; [discriminate | congruence].
  - split; [discriminate | reflexivity].
Qed.

Lemma Wrap_keeps_cause (e : error) (message : string) :
  Error (withStack (withMessage e message)) = message ++ ": " ++ Error e /\
  Unwrap (withStack (withMessage e message)) = Some (withMessage e message) /\
  Unwrap (withMessage e message) = Some e /\
  Cause (withStack (withMessage e message)) = Cause e /\
  In e (chain (withStack (withMessage e message))).
Proof.
  repeat split. simpl. right. right. destruct e; simpl; auto.
Qed.

Lemma append_assoc (a b c : string) : (a ++ b) ++ c = a ++ (b ++ c).
Proof.
  induction a as [|ch a IH]; simpl; [reflexivity | now rewrite IH].
Qed.

(* ------------------------------------------------------------------ *)
(** ** getType and Compile, path by path *)

Section CompilePaths.
Context {T : ExternalTypes} {W : Collaborators}.

Lemma getType_cases (i : Input) :
  getType i = (TemplateInputType, true) \/
  getType i = (WorkflowInputType, true) \/
  getType i = (-1, false).
Proof.
  unfold getType.
  destruct (_ || _ || _); [now left |].
  destruct (_ >? _); [right; now left | right; now right].
Qed.

Lemma getType_template (i : Input) :
  DNS (Template i) <> [] \/ HTTP (Template i) <> [] \/
  HTTPRequests (Template i) <> [] ->
  getType i = (TemplateInputType, true).
Proof.
  intros H. unfold getType.
  destruct H as [H | [H | H]]; apply len_pos_iff in H; rewrite H;
    rewrite ?orb_true_r; reflexivity.
Qed.

Lemma getType_workflow (i : Input) :
  DNS (Template i) = [] -> HTTP (Template i) = [] ->
  HTTPRequests (Template i) = [] -> Logic (Workflow i) <> [] ->
  getType i = (WorkflowInputType, true).
Proof.
  intros H1 H2 H3 H4. unfold getType. rewrite H1, H2, H3. simpl.
  apply len_pos_iff in H4. rewrite H4. reflexivity.
Qed.

Lemma getType_neither (i : Input) :
  DNS (Template i) = [] -> HTTP (Template i) = [] ->
  HTTPRequests (Template i) = [] -> Logic (Workflow i) = [] ->
  getType i = (-1, false).
Proof.
  intros H1 H2 H3 H4. unfold getType. rewrite H1, H2, H3, H4. reflexivity.
Qed.

(** The three paths of [Compile], each as one equation. *)
Lemma Compile_call_unclassified (i : Input) catalog path :
  getType i = (-1, false) ->
  Compile_call i catalog path =
  (Returned (None, Some (New "invalid template/workflow supplied")), i, []).
Proof.
  intros H. unfold Compile_call, run, Compile, bind, get. rewrite H.
  reflexivity.
Qed.

Lemma Compile_call_template (i : Input) catalog path :
  getType i = (TemplateInputType, true) ->
  Compile_call i catalog path =
  (let '(tpl, (compiledTemplate, err)) :=
     Template_Compile (Template i) (template_options i catalog path) in
   (Returned
      (if nonnil err then (None, Wrap err "could not compile template")
       else (Some {| Type_ := TemplateInputType;
                     CompiledTemplate := compiledTemplate;
                     CompiledWorkflow := None |}, None)),
    {| ID := ID i; Info := Info i; Template := tpl; Workflow := Workflow i |},
    [new_CompiledInput {| Type_ := TemplateInputType;
                          CompiledTemplate := None;
                          CompiledWorkflow := None |};
     call_Template_Compile (template_options i catalog path)])).
Proof.
  intros H.
  unfold Compile_call, run, Compile, bind, get, emit,
    Template_Compile_on_receiver, template_options.
  rewrite H. simpl.
  destruct (Template_Compile _ _) as [tpl [ct err]].
  destruct err; reflexivity.
Qed.

Lemma Compile_call_workflow (i : Input) catalog path :
  getType i = (WorkflowInputType, true) ->
  Compile_call i catalog path =
  (let '(wf, (compiledWorkflow, err)) :=
     Workflow_Compile (Workflow i) (workflow_options i catalog path) in
   (Returned
      (if nonnil err then (None, Wrap err "could not compile workflow")
       else (Some {| Type_ := WorkflowInputType;
                     CompiledTemplate := None;
                     CompiledWorkflow := compiledWorkflow |}, None)),
    {| ID := ID i; Info := Info i; Template := Template i; Workflow := wf |},
    [new_CompiledInput {| Type_ := WorkflowInputType;
                          CompiledTemplate := None;
                          CompiledWorkflow := None |};
     call_Workflow_Compile (workflow_options i catalog path)])).
Proof.
  intros H.
  unfold Compile_call, run, Compile, bind, get, emit,
    Workflow_Compile_on_receiver, workflow_options.
  rewrite H. simpl.
  destruct (Workflow_Compile _ _) as [wf [cw err]].
  destruct err; reflexivity.
Qed.

End CompilePaths.

(* ------------------------------------------------------------------ *)
(** ** Properties of getType and Compile *)

Section CompileProperties.
Context {T : ExternalTypes} {W : Collaborators}.

(** What a successful [Compile] did: which sub-compiler ran, what it
    returned, the wrapper built from it and the log. *)
Lemma Compile_success_inv (i : Input) catalog path (c : CompiledInput) :
  Compile_outcome i catalog path = Returned (Some c, None) ->
  (getType i = (TemplateInputType, true) /\
   (exists tpl ct,
       Template_Compile (Template i) (template_options i catalog path)
       = (tpl, (ct, None)) /\
       c = {| Type_ := TemplateInputType; CompiledTemplate := ct;
              CompiledWorkflow := None |}) /\
   Compile_log i catalog path =
   [new_CompiledInput {| Type_ := TemplateInputType; CompiledTemplate := None;
                         CompiledWorkflow := None |};
    call_Template_Compile (template_options i catalog path)])
  \/
  (getType i = (WorkflowInputType, true) /\
   (exists wf cw,
       Workflow_Compile (Workflow i) (workflow_options i catalog path)
       = (wf, (cw, None)) /\
       c = {| Type_ := WorkflowInputType; CompiledTemplate := None;
              CompiledWorkflow := cw |}) /\
   Compile_log i catalog path =
   [new_CompiledInput {| Type_ := WorkflowInputType; CompiledTemplate := None;
                         CompiledWorkflow := None |};
    call_Workflow_Compile (workflow_options i catalog path)]).
Proof.
  unfold Compile_outcome, Compile_log.
  destruct (getType_cases i) as [G | [G | G]].
  - rewrite (Compile_call_template i catalog path G).
    destruct (Template_Compile _ _) as [tpl [ct err]].
    destruct err as [e|]; simpl; intros H; [discriminate |].
    left. split; [exact G | split; [| reflexivity]].
    exists tpl, ct. split; congruence.
  - rewrite (Compile_call_workflow i catalog path G).
    destruct (Workflow_Compile _ _) as [wf [cw err]].
    destruct err as [e|]; simpl; intros H; [discriminate |].
    right. split; [exact G | split; [| reflexivity]].
    exists wf, cw. split; congruence.
  - rewrite (Compile_call_unclassified i catalog path G). simpl. discriminate.
Qed.

(** C1. Classification follows a fixed precedence.  When one of [DNS],
    [HTTP], [HTTPRequests] is non-empty, [getType] answers Template, and it
    does so whatever the embedded workflow is, a non-empty logic collection
    included.  When the three are empty and the logic collection is not, it
    answers Workflow. *)
Theorem getType_precedence (i : Input) :
  (DNS (Template i) <> [] \/ HTTP (Template i) <> [] \/
   HTTPRequests (Template i) <> [] ->
   getType i = (TemplateInputType, true) /\
   forall wf : workflows_Workflow,
     getType {| ID := ID i; Info := Info i; Template := Template i;
                Workflow := wf |} = (TemplateInputType, true)) /\
  (DNS (Template i) = [] -> HTTP (Template i) = [] ->
   HTTPRequests (Template i) = [] -> Logic (Workflow i) <> [] ->
   getType i = (WorkflowInputType, true)).
Proof.
  split.
  - intros H. split.
    + now apply getType_template.
    + intros wf. now apply getType_template.
  - apply getType_workflow.
Qed.

(** C2. After a successful [Compile] of an input classified Template the
    wrapper is tagged Template, its workflow payload is nil and its template
    payload is the pointer the template sub-compiler returned with its nil
    error; for an input classified Workflow the same holds with the kinds
    exchanged.  So never both payloads are set, and exactly one is set when
    and only when the pointer the sub-compiler returned is not nil. *)
Theorem Compile_one_payload (i : Input) catalog path (c : CompiledInput) :
  Compile_outcome i catalog path = Returned (Some c, None) ->
  (getType i = (TemplateInputType, true) /\
   Type_ c = TemplateInputType /\
   CompiledWorkflow c = None /\
   (exists tpl,
       Template_Compile (Template i) (template_options i catalog path)
       = (tpl, (CompiledTemplate c, None))) /\
   (exactly_one_populated c = true <-> CompiledTemplate c <> None)) \/
  (getType i = (WorkflowInputType, true) /\
   Type_ c = WorkflowInputType /\
   CompiledTemplate c = None /\
   (exists wf,
       Workflow_Compile (Workflow i) (workflow_options i catalog path)
       = (wf, (CompiledWorkflow c, None))) /\
   (exactly_one_populated c = true <-> CompiledWorkflow c <> None)).
Proof.
  intros H.
  destruct (Compile_success_inv i catalog path c H)
    as [(G & (tpl & ct & E & ->) & _) | (G & (wf & cw & E & ->) & _)];
    [left | right]; simpl;
    (split; [exact G |]); (split; [reflexivity |]);
    (split; [reflexivity |]); (split; [eauto |]);
    unfold exactly_one_populated; simpl.
  - destruct ct; simpl; split; intros K; try reflexivity; try discriminate;
      now elim K.
  - destruct cw; simpl; split; intros K; try reflexivity; try discriminate;
      now elim K.
Qed.

(** C4. When the sub-compiler that [Compile] calls returns an error,
    [Compile] returns no result and that error wrapped under the marker of
    the kind.  The message is the marker, a colon and the message of the
    cause, and the cause is still reached through [Unwrap] and [Cause]. *)
Theorem Compile_wraps_cause (i : Input) catalog path (e : error) :
  (forall tpl ct,
      getType i = (TemplateInputType, true) ->
      Template_Compile (Template i) (template_options i catalog path)
      = (tpl, (ct, Some e)) ->
      exists w,
        Compile_outcome i catalog path = Returned (None, Some w) /\
        Error w = "could not compile template: " ++ Error e /\
        Unwrap w = Some (withMessage e "could not compile template") /\
        In e (chain w) /\ Cause w = Cause e) /\
  (forall wf cw,
      getType i = (WorkflowInputType, true) ->
      Workflow_Compile (Workflow i) (workflow_options i catalog path)
      = (wf, (cw, Some e)) ->
      exists w,
        Compile_outcome i catalog path = Returned (None, Some w) /\
        Error w = "could not compile workflow: " ++ Error e /\
        Unwrap w = Some (withMessage e "could not compile workflow") /\
        In e (chain w) /\ Cause w = Cause e).
Proof.
  split.
  - intros tpl ct G E.
    exists (withStack (withMessage e "could not compile template")).
    unfold Compile_outcome.
    rewrite (Compile_call_template i catalog path G), E.
    split; [reflexivity |].
    destruct (Wrap_keeps_cause e "could not compile template")
      as (H1 & H2 & _ & H4 & H5).
    auto.
  - intros wf cw G E.
    exists (withStack (withMessage e "could not compile workflow")).
    unfold Compile_outcome.
    rewrite (Compile_call_workflow i catalog path G), E.
    split; [reflexivity |].
    destruct (Wrap_keeps_cause e "could not compile workflow")
      as (H1 & H2 & _ & H4 & H5).
    auto.
Qed.

(** C5. When the three request collections and the logic collection are
    all empty, [getType] reports failure, with a value that is neither of
    the two types, and [Compile] returns no result and a new error; no
    wrapper is built and no sub-compiler is called. *)
Theorem Compile_rejects_unrecognized (i : Input) catalog path :
  DNS (Template i) = [] -> HTTP (Template i) = [] ->
  HTTPRequests (Template i) = [] -> Logic (Workflow i) = [] ->
  snd (getType i) = false /\
  fst (getType i) <> TemplateInputType /\
  fst (getType i) <> WorkflowInputType /\
  Compile_outcome i catalog path =
    Returned (None, Some (New "invalid template/workflow supplied")) /\
  Compile_log i catalog path = [].
Proof.
  intros H1 H2 H3 H4.
  pose proof (getType_neither i H1 H2 H3 H4) as G.
  unfold Compile_outcome, Compile_log.
  rewrite (Compile_call_unclassified i catalog path G), G. simpl.
  repeat split; discriminate.
Qed.

(** C7. In a successful [Compile] the first thing logged is the new
    wrapper, carrying the classified type and no payload; every call of a
    sub-compiler comes after it, and the returned wrapper has the same tag,
    the classified type.  A set template payload means the tag is Template
    and a set workflow payload means the tag is Workflow.  In the other
    direction the payload of the tag's kind is the pointer the sub-compiler
    of that kind returned, so it is set when and only when that pointer is
    not nil. *)
Theorem Compile_tag_consistent (i : Input) catalog path (c : CompiledInput) :
  Compile_outcome i catalog path = Returned (Some c, None) ->
  (exists c0 calls,
      Compile_log i catalog path = new_CompiledInput c0 :: calls /\
      Type_ c0 = fst (getType i) /\
      CompiledTemplate c0 = None /\ CompiledWorkflow c0 = None /\
      forallb is_subcompiler_call calls = true /\
      Type_ c = Type_ c0) /\
  Type_ c = fst (getType i) /\
  (CompiledTemplate c <> None -> Type_ c = TemplateInputType) /\
  (CompiledWorkflow c <> None -> Type_ c = WorkflowInputType) /\
  (Type_ c = TemplateInputType ->
   exists tpl,
     Template_Compile (Template i) (template_options i catalog path)
     = (tpl, (CompiledTemplate c, None))) /\
  (Type_ c = WorkflowInputType ->
   exists wf,
     Workflow_Compile (Workflow i) (workflow_options i catalog path)
     = (wf, (CompiledWorkflow c, None))).
Proof.
  intros H.
  destruct (Compile_success_inv i catalog path c H)
    as [(G & (tpl & ct & E & ->) & L) | (G & (wf & cw & E & ->) & L)];
    rewrite L, G; simpl.
  - split; [eexists; eexists; repeat split |].
    split; [reflexivity |].
    split; [intros _; reflexivity |].
    split; [intros N; now elim N |].
    split; [intros _; eauto | intros K; discriminate K].
  - split; [eexists; eexists; repeat split |].
    split; [reflexivity |].
    split; [intros N; now elim N |].
    split; [intros _; reflexivity |].
    split; [intros K; discriminate K | intros _; eauto].
Qed.

(** C8. A call of [Compile] on an input ends in exactly one of five ways,
    each a return.  An unclassified input gives a nil wrapper and the
    classification error, with nothing built.  For a classified input the
    tagged wrapper is built and the sub-compiler of the kind is called: when
    it returns an error the wrapper is dropped and the result is nil with
    the wrapped error; when it returns no error the result is the wrapper
    with the classified tag, the pointer the sub-compiler returned as the
    payload of that kind and a nil payload of the other kind, with a nil
    error.  So the wrapper is nil exactly when the error is not. *)
Theorem Compile_all_or_nothing (i : Input) catalog path :
  ((exists c, Compile_outcome i catalog path = Returned (Some c, None)) \/
   (exists e, Compile_outcome i catalog path = Returned (None, Some e))) /\
  ((getType i = (-1, false) /\
    Compile_outcome i catalog path =
      Returned (None, Some (New "invalid template/workflow supplied")) /\
    Compile_log i catalog path = []) \/
   (getType i = (TemplateInputType, true) /\
    Compile_log i catalog path =
      [new_CompiledInput {| Type_ := TemplateInputType;
                            CompiledTemplate := None;
                            CompiledWorkflow := None |};
       call_Template_Compile (template_options i catalog path)] /\
    exists tpl ct err,
      Template_Compile (Template i) (template_options i catalog path)
      = (tpl, (ct, err)) /\
      Compile_outcome i catalog path =
      Returned
        match err with
        | Some e =>
            (None,
             Some (withStack (withMessage e "could not compile template")))
        | None =>
            (Some {| Type_ := TemplateInputType; CompiledTemplate := ct;
                     CompiledWorkflow := None |}, None)
        end) \/
   (getType i = (WorkflowInputType, true) /\
    Compile_log i catalog path =
      [new_CompiledInput {| Type_ := WorkflowInputType;
                            CompiledTemplate := None;
                            CompiledWorkflow := None |};
       call_Workflow_Compile (workflow_options i catalog path)] /\
    exists wf cw err,
      Workflow_Compile (Workflow i) (workflow_options i catalog path)
      = (wf, (cw, err)) /\
      Compile_outcome i catalog path =
      Returned
        match err with
        | Some e =>
            (None,
             Some (withStack (withMessage e "could not compile workflow")))
        | None =>
            (Some {| Type_ := WorkflowInputType; CompiledTemplate := None;
                     CompiledWorkflow := cw |}, None)
        end)).
Proof.
  unfold Compile_outcome, Compile_log.
  destruct (getType_cases i) as [G | [G | G]].
  - rewrite (Compile_call_template i catalog path G).
    destruct (Template_Compile _ _) as [tpl [ct err]] eqn:E.
    split.
    + destruct err as [e|]; simpl; [right | left]; eexists; reflexivity.
    + right. left. split; [exact G |]. split; [reflexivity |].
      exists tpl, ct, err. split; [reflexivity |].
      destruct err; reflexivity.
  - rewrite (Compile_call_workflow i catalog path G).
    destruct (Workflow_Compile _ _) as [wf [cw err]] eqn:E.
    split.
    + destruct err as [e|]; simpl; [right | left]; eexists; reflexivity.
    + right. right. split; [exact G |]. split; [reflexivity |].
      exists wf, cw, err. split; [reflexivity |].
      destruct err; reflexivity.
  - rewrite (Compile_call_unclassified i catalog path G). simpl.
    split; [right; eexists; reflexivity |].
    left. auto.
Qed.

(** C10. [Compile] itself assigns to no field of its receiver.  [ID] and
    [Info] are the same after the call, whatever the outcome, and so is the
    embedded structure whose sub-compiler was not called; an unclassified
    input is left whole.  The embedded structure that is compiled is left
    as its sub-compiler leaves it: the receiver after the call is the input
    with that structure replaced by what the sub-compiler returned for it.
    So the [Input] is the same after the call exactly when the sub-compiler
    that ran left its receiver as it found it, and then compiling it again
    gives the same call. *)
Theorem Compile_preserves_receiver (i : Input) catalog path :
  ID (Compile_receiver i catalog path) = ID i /\
  Info (Compile_receiver i catalog path) = Info i /\
  (fst (getType i) <> TemplateInputType ->
   Template (Compile_receiver i catalog path) = Template i) /\
  (fst (getType i) <> WorkflowInputType ->
   Workflow (Compile_receiver i catalog path) = Workflow i) /\
  (getType i = (-1, false) -> Compile_receiver i catalog path = i) /\
  (getType i = (TemplateInputType, true) ->
   Compile_receiver i catalog path =
   with_Template i
     (fst (Template_Compile (Template i) (template_options i catalog path)))) /\
  (getType i = (WorkflowInputType, true) ->
   Compile_receiver i catalog path =
   with_Workflow i
     (fst (Workflow_Compile (Workflow i) (workflow_options i catalog path)))) /\
  (Compile_receiver i catalog path = i <->
   (getType i = (TemplateInputType, true) ->
    fst (Template_Compile (Template i) (template_options i catalog path))
    = Template i) /\
   (getType i = (WorkflowInputType, true) ->
    fst (Workflow_Compile (Workflow i) (workflow_options i catalog path))
    = Workflow i)) /\
  (Compile_receiver i catalog path = i ->
   getType (Compile_receiver i catalog path) = getType i /\
   Compile_call (Compile_receiver i catalog path) catalog path =
   Compile_call i catalog path) /\
  (receiver_read_only -> Compile_receiver i catalog path = i).
Proof.
  unfold Compile_receiver, with_Template, with_Workflow.
  destruct (getType_cases i) as [G | [G | G]].
  - rewrite (Compile_call_template i catalog path G), G.
    destruct (Template_Compile _ _) as [tpl [ct err]] eqn:E. simpl.
    split; [reflexivity |]. split; [reflexivity |].
    split; [intros N; now elim N |]. split; [reflexivity |].
    split; [intros K; discriminate K |]. split; [reflexivity |].
    split; [intros K; discriminate K |].
    split; [| split].
    + split.
      * intros K. split; [| intros D; discriminate D].
        intros _. apply (f_equal Template) in K. exact K.
      * intros [K _]. rewrite (K eq_refl). now destruct i.
    + intros K. pose proof (f_equal Template K) as KT. simpl in KT.
      subst tpl. rewrite K. split; [exact G |].
      rewrite (Compile_call_template i catalog path G), E, K. reflexivity.
    + intros [RT _].
      specialize (RT (Template i) (template_options i catalog path)).
      rewrite E in RT. simpl in RT. subst tpl. now destruct i.
  - rewrite (Compile_call_workflow i catalog path G), G.
    destruct (Workflow_Compile _ _) as [wf [cw err]] eqn:E. simpl.
    split; [reflexivity |]. split; [reflexivity |].
    split; [reflexivity |]. split; [intros N; now elim N |].
    split; [intros K; discriminate K |].
    split; [intros K; discriminate K |]. split; [reflexivity |].
    split; [| split].
    + split.
      * intros K. split; [intros D; discriminate D |].
        intros _. apply (f_equal Workflow) in K. exact K.
      * intros [_ K]. rewrite (K eq_refl). now destruct i.
    + intros K. pose proof (f_equal Workflow K) as KW. simpl in KW.
      subst wf. rewrite K. split; [exact G |].
      rewrite (Compile_call_workflow i catalog path G), E, K. reflexivity.
    + intros [_ RW].
      specialize (RW (Workflow i) (workflow_options i catalog path)).
      rewrite E in RW. simpl in RW. subst wf. now destruct i.
  - rewrite (Compile_call_unclassified i catalog path G), G. simpl.
    split; [reflexivity |]. split; [reflexivity |].
    split; [reflexivity |]. split; [reflexivity |].
    split; [reflexivity |].
    split; [intros K; discriminate K |].
    split; [intros K; discriminate K |].
    split; [| split; [| reflexivity]].
    + split; [| reflexivity].
      intros _. split; intros K; discriminate K.
    + intros _. split; [exact G |].
      apply (Compile_call_unclassified i catalog path G).
Qed.

End CompileProperties.

(* ------------------------------------------------------------------ *)
(** ** The message built by ReadInput *)

Lemma Sprintf_errors_in_template (n : Z) (s : string) :
  fmt.Sprintf "%d errors in template: %s, skipping" [fmt.Int n; fmt.Stringer s]
  = fmt.itoa n ++ " errors in template: " ++ s ++ ", skipping".
Proof. reflexivity. Qed.

Lemma first_word_digits (d : Decimal.uint) (rest : string) :
  first_word (NilEmpty.string_of_uint d ++ String " " rest)
  = NilEmpty.string_of_uint d.
Proof.
  induction d; simpl; rewrite ?IHd; reflexivity.
Qed.

Lemma first_word_itoa (n : Z) (rest : string) :
  0 <= n -> first_word (fmt.itoa n ++ String " " rest) = fmt.itoa n.
Proof.
  intros Hn. unfold fmt.itoa.
  destruct n as [|p|p]; [reflexivity | | lia].
  simpl. unfold NilZero.string_of_uint.
  pose proof (Unsigned.to_uint_nonnil p) as N.
  destruct (Pos.to_uint p) eqn:E; try congruence;
    rewrite <- E; apply first_word_digits.
Qed.

Lemma itoa_read_back (n : Z) :
  0 <= n ->
  option_map Z.of_int (NilZero.int_of_string (fmt.itoa n)) = Some n.
Proof.
  intros Hn. unfold fmt.itoa.
  rewrite NilZero.isi.
  - simpl. now rewrite DecimalZ.of_to.
  - destruct n; simpl; try discriminate.
    intros [= E]. now apply (Unsigned.to_uint_nonnil p).
  - destruct n; simpl; try discriminate. lia.
Qed.

Lemma reported_count_itoa (n : Z) (rest : string) :
  0 <= n -> reported_count (fmt.itoa n ++ String " " rest) = Some n.
Proof.
  intros Hn. unfold reported_count.
  rewrite first_word_itoa by exact Hn. now apply itoa_read_back.
Qed.

Lemma len_nonneg {A : Type} (l : list A) : 0 <= len l.
Proof. unfold len. lia. Qed.

(** An invalid result carries at least one violation. *)
Lemma invalid_has_first {RE : Type} (r : gojsonschema.Result RE) :
  gojsonschema.Valid r = false ->
  exists first rest, gojsonschema.Errors r = first :: rest.
Proof.
  unfold gojsonschema.Valid, gojsonschema.Errors, len.
  destruct (gojsonschema.result_errors r) as [|first rest]; simpl.
  - discriminate.
  - intros _. now exists first, rest.
Qed.

(* ------------------------------------------------------------------ *)
(** ** ReadInput, exit by exit *)

Section ReadInputPaths.
Context {T : ExternalTypes} {W : Collaborators}.

Ltac run_ReadInput :=
  unfold ReadInput_call, run, ReadInput, bind, emit, defer, return_, panic;
  simpl.

Lemma ReadInput_open_fails path file e :
  os_Open path = (file, Some e) ->
  ReadInput_call path = (Returned (None, Some e), [call_Open path]).
Proof. intros H1. run_ReadInput. now rewrite H1. Qed.

Lemma ReadInput_read_fails path file data e :
  os_Open path = (file, None) ->
  ioutil_ReadAll file = (data, Some e) ->
  ReadInput_call path =
  (Returned (None, Some e),
   [call_Open path; call_ReadAll file; call_Close file]).
Proof. intros H1 H2. run_ReadInput. rewrite H1. simpl. now rewrite H2. Qed.

Lemma ReadInput_parse_fails path file data raw e :
  os_Open path = (file, None) ->
  ioutil_ReadAll file = (data, None) ->
  unmarshalForValidation data None = (raw, Some e) ->
  ReadInput_call path =
  (Returned (None, Some e),
   [call_Open path; call_ReadAll file; call_unmarshalForValidation data;
    call_Close file]).
Proof.
  intros H1 H2 H3. run_ReadInput. rewrite H1. simpl. rewrite H2. simpl.
  now rewrite H3.
Qed.

Lemma ReadInput_validate_fails path file data raw result e :
  os_Open path = (file, None) ->
  ioutil_ReadAll file = (data, None) ->
  unmarshalForValidation data None = (raw, None) ->
  gojsonschema_Validate schemaLoader (NewGoLoader raw) = (result, Some e) ->
  ReadInput_call path =
  (Returned (None, Some e),
   [call_Open path; call_ReadAll file; call_unmarshalForValidation data;
    call_Validate (NewGoLoader raw); call_Close file]).
Proof.
  intros H1 H2 H3 H4. run_ReadInput. rewrite H1. simpl. rewrite H2. simpl.
  rewrite H3. simpl. now rewrite H4.
Qed.

Lemma ReadInput_nil_result path file data raw :
  os_Open path = (file, None) ->
  ioutil_ReadAll file = (data, None) ->
  unmarshalForValidation data None = (raw, None) ->
  gojsonschema_Validate schemaLoader (NewGoLoader raw) = (None, None) ->
  ReadInput_call path =
  (Panicked NilDereference,
   [call_Open path; call_ReadAll file; call_unmarshalForValidation data;
    call_Validate (NewGoLoader raw); call_Close file]).
Proof.
  intros H1 H2 H3 H4. run_ReadInput. rewrite H1. simpl. rewrite H2. simpl.
  rewrite H3. simpl. now rewrite H4.
Qed.

Lemma ReadInput_invalid path file data raw result first rest :
  os_Open path = (file, None) ->
  ioutil_ReadAll file = (data, None) ->
  unmarshalForValidation data None = (raw, None) ->
  gojsonschema_Validate schemaLoader (NewGoLoader raw) = (Some result, None) ->
  gojsonschema.Valid result = false ->
  gojsonschema.Errors result = first :: rest ->
  ReadInput_call path =
  (Returned
     (None,
      Some (Errorf "%d errors in template: %s, skipping"
              [fmt.Int (len (gojsonschema.Errors result));
               fmt.Stringer (ResultError_String first)])),
   [call_Open path; call_ReadAll file; call_unmarshalForValidation data;
    call_Validate (NewGoLoader raw); call_Close file]).
Proof.
  intros H1 H2 H3 H4 H5 H6. run_ReadInput. rewrite H1. simpl. rewrite H2.
  simpl. rewrite H3. simpl. rewrite H4. simpl. rewrite H5. simpl.
  now rewrite H6.
Qed.

Lemma ReadInput_valid path file data raw result input err :
  os_Open path = (file, None) ->
  ioutil_ReadAll file = (data, None) ->
  unmarshalForValidation data None = (raw, None) ->
  gojsonschema_Validate schemaLoader (NewGoLoader raw) = (Some result, None) ->
  gojsonschema.Valid result = true ->
  yaml_Unmarshal data zero_Input = (input, err) ->
  ReadInput_call path =
  (Returned (if nonnil err then (None, err) else (Some input, None)),
   [call_Open path; call_ReadAll file; call_unmarshalForValidation data;
    call_Validate (NewGoLoader raw); call_yaml_Unmarshal data;
    call_Close file]).
Proof.
  intros H1 H2 H3 H4 H5 H6. run_ReadInput. rewrite H1. simpl. rewrite H2.
  simpl. rewrite H3. simpl. rewrite H4. simpl. rewrite H5. simpl.
  rewrite H6. now destruct err.
Qed.

(** The decoder runs only in the last exit: a logged decode means that the
    earlier phases all passed, that the result was valid, and gives the whole
    log. *)
Lemma ReadInput_decode_inv path d :
  In (call_yaml_Unmarshal d) (snd (ReadInput_call path)) ->
  exists file raw result,
    os_Open path = (file, None) /\
    ioutil_ReadAll file = (d, None) /\
    unmarshalForValidation d None = (raw, None) /\
    gojsonschema_Validate schemaLoader (NewGoLoader raw) = (Some result, None) /\
    gojsonschema.Valid result = true /\
    snd (ReadInput_call path) =
    [call_Open path; call_ReadAll file; call_unmarshalForValidation d;
     call_Validate (NewGoLoader raw); call_yaml_Unmarshal d; call_Close file].
Proof.
  destruct (os_Open path) as [file e1] eqn:H1.
  destruct e1 as [e1|].
  { rewrite (ReadInput_open_fails _ _ _ H1). simpl.
    intros [K | []]; discriminate. }
  destruct (ioutil_ReadAll file) as [data e2] eqn:H2.
  destruct e2 as [e2|].
  { rewrite (ReadInput_read_fails _ _ _ _ H1 H2). simpl.
    intros [K | [K | [K | []]]]; discriminate. }
  destruct (unmarshalForValidation data None) as [raw e3] eqn:H3.
  destruct e3 as [e3|].
  { rewrite (ReadInput_parse_fails _ _ _ _ _ H1 H2 H3). simpl.
    intros [K | [K | [K | [K | []]]]]; discriminate. }
  destruct (gojsonschema_Validate schemaLoader (NewGoLoader raw))
    as [result e4] eqn:H4.
  destruct e4 as [e4|].
  { rewrite (ReadInput_validate_fails _ _ _ _ _ _ H1 H2 H3 H4). simpl.
    intros [K | [K | [K | [K | [K | []]]]]]; discriminate. }
  destruct result as [result|].
  2:{ rewrite (ReadInput_nil_result _ _ _ _ H1 H2 H3 H4). simpl.
      intros [K | [K | [K | [K | [K | []]]]]]; discriminate. }
  destruct (gojsonschema.Valid result) eqn:H5.
  - destruct (yaml_Unmarshal data zero_Input) as [input err] eqn:H6.
    rewrite (ReadInput_valid _ _ _ _ _ _ _ H1 H2 H3 H4 H5 H6). simpl.
    intros [K | [K | [K | [K | [K | [K | []]]]]]]; try discriminate.
    injection K as ->.
    exists file, raw, result. repeat split; assumption.
  - destruct (invalid_has_first result H5) as (first & rest & H6).
    rewrite (ReadInput_invalid _ _ _ _ _ _ _ H1 H2 H3 H4 H5 H6). simpl.
    intros [K | [K | [K | [K | [K | []]]]]]; discriminate.
Qed.

End ReadInputPaths.

(* ------------------------------------------------------------------ *)
(** ** Properties of ReadInput *)

Section ReadInputProperties.
Context {T : ExternalTypes} {W : Collaborators}.

(** C3. When the file opens, reads and parses and the validator reports the
    document invalid, [ReadInput] returns no [Input] and an error.  The
    message of the error is the number of violations in the result, then
    " errors in template: ", then the text of the first violation, then
    ", skipping": the count read at the head of the message is the number of
    violations, and the text of the first violation occurs in the message. *)
Theorem ReadInput_reports_violations path file data raw result :
  os_Open path = (file, None) ->
  ioutil_ReadAll file = (data, None) ->
  unmarshalForValidation data None = (raw, None) ->
  gojsonschema_Validate schemaLoader (NewGoLoader raw) = (Some result, None) ->
  gojsonschema.Valid result = false ->
  exists first rest err,
    gojsonschema.Errors result = first :: rest /\
    fst (ReadInput_call path) = Returned (None, Some err) /\
    Error err =
      fmt.itoa (len (gojsonschema.Errors result)) ++ " errors in template: "
      ++ ResultError_String first ++ ", skipping" /\
    reported_count (Error err) = Some (len (gojsonschema.Errors result)) /\
    includes (Error err) (ResultError_String first).
Proof.
  intros H1 H2 H3 H4 H5.
  destruct (invalid_has_first result H5) as (first & rest & H6).
  exists first, rest. eexists. split; [exact H6 |].
  rewrite (ReadInput_invalid _ _ _ _ _ _ _ H1 H2 H3 H4 H5 H6).
  split; [reflexivity |].
  unfold Errorf. rewrite Sprintf_errors_in_template. simpl Error.
  split; [reflexivity |]. split.
  - apply (reported_count_itoa _ _ (len_nonneg _)).
  - exists (fmt.itoa (len (gojsonschema.Errors result))
            ++ " errors in template: "), ", skipping".
    now rewrite append_assoc.
Qed.

(** C6. The phases of [ReadInput] run in order and each failure ends the
    call.  A failed open returns its error after the open alone.  A failed
    read returns its error before anything is parsed.  A failed generic
    parse returns its error before the validator is called.  The decoder is
    called only after a validation that passed, on the bytes that were
    parsed for validation, and its error, if any, is returned with no
    [Input]. *)
Theorem ReadInput_phase_order path :
  (forall file e,
      os_Open path = (file, Some e) ->
      ReadInput_call path = (Returned (None, Some e), [call_Open path])) /\
  (forall file data e,
      os_Open path = (file, None) ->
      ioutil_ReadAll file = (data, Some e) ->
      ReadInput_call path =
      (Returned (None, Some e),
       [call_Open path; call_ReadAll file; call_Close file])) /\
  (forall file data raw e,
      os_Open path = (file, None) ->
      ioutil_ReadAll file = (data, None) ->
      unmarshalForValidation data None = (raw, Some e) ->
      ReadInput_call path =
      (Returned (None, Some e),
       [call_Open path; call_ReadAll file; call_unmarshalForValidation data;
        call_Close file])) /\
  (forall d,
      In (call_yaml_Unmarshal d) (snd (ReadInput_call path)) ->
      exists file raw result,
        gojsonschema_Validate schemaLoader (NewGoLoader raw)
        = (Some result, None) /\
        gojsonschema.Valid result = true /\
        snd (ReadInput_call path) =
        [call_Open path; call_ReadAll file; call_unmarshalForValidation d;
         call_Validate (NewGoLoader raw); call_yaml_Unmarshal d;
         call_Close file]) /\
  (forall file data raw result input e,
      os_Open path = (file, None) ->
      ioutil_ReadAll file = (data, None) ->
      unmarshalForValidation data None = (raw, None) ->
      gojsonschema_Validate schemaLoader (NewGoLoader raw)
      = (Some result, None) ->
      gojsonschema.Valid result = true ->
      yaml_Unmarshal data zero_Input = (input, Some e) ->
      fst (ReadInput_call path) = Returned (None, Some e)).
Proof.
  split; [intros; eapply ReadInput_open_fails; eassumption |].
  split; [intros; eapply ReadInput_read_fails; eassumption |].
  split; [intros; eapply ReadInput_parse_fails; eassumption |].
  split.
  - intros d H.
    destruct (ReadInput_decode_inv path d H)
      as (file & raw & result & _ & _ & _ & H4 & H5 & L).
    exists file, raw, result. auto.
  - intros file data raw result input e H1 H2 H3 H4 H5 H6.
    now rewrite (ReadInput_valid _ _ _ _ _ _ _ H1 H2 H3 H4 H5 H6).
Qed.

(** C9. A result that is not valid has a first violation, so the element
    read in the failure branch of [ReadInput] exists: no call of
    [ReadInput] ends in an index-out-of-range panic. *)
Theorem ReadInput_first_violation_exists :
  (forall result : gojsonschema.Result ResultError,
      gojsonschema.Valid result = false ->
      nth_error (gojsonschema.Errors result) 0 <> None) /\
  (forall path, fst (ReadInput_call path) <> Panicked IndexOutOfRange).
Proof.
  split.
  - intros result H.
    destruct (invalid_has_first result H) as (first & rest & ->).
    discriminate.
  - intros path.
    destruct (os_Open path) as [file e1] eqn:H1.
    destruct e1 as [e1|].
    { now rewrite (ReadInput_open_fails _ _ _ H1). }
    destruct (ioutil_ReadAll file) as [data e2] eqn:H2.
    destruct e2 as [e2|].
    { now rewrite (ReadInput_read_fails _ _ _ _ H1 H2). }
    destruct (unmarshalForValidation data None) as [raw e3] eqn:H3.
    destruct e3 as [e3|].
    { now rewrite (ReadInput_parse_fails _ _ _ _ _ H1 H2 H3). }
    destruct (gojsonschema_Validate schemaLoader (NewGoLoader raw))
      as [result e4] eqn:H4.
    destruct e4 as [e4|].
    { now rewrite (ReadInput_validate_fails _ _ _ _ _ _ H1 H2 H3 H4). }
    destruct result as [result|].
    2:{ now rewrite (ReadInput_nil_result _ _ _ _ H1 H2 H3 H4). }
    destruct (gojsonschema.Valid result) eqn:H5.
    + destruct (yaml_Unmarshal data zero_Input) as [input err] eqn:H6.
      now rewrite (ReadInput_valid _ _ _ _ _ _ _ H1 H2 H3 H4 H5 H6).
    + destruct (invalid_has_first result H5) as (first & rest & H6).
      now rewrite (ReadInput_invalid _ _ _ _ _ _ _ H1 H2 H3 H4 H5 H6).
Qed.

End ReadInputProperties.

(* ------------------------------------------------------------------ *)
(** ** The properties at work in the concrete world *)

Import Demo.

Lemma Demo_receiver_read_only : receiver_read_only (W := Demo.world).
Proof.
  split.
  - intros tpl o. simpl. now destruct (String.eqb (t_Path o) "broken").
  - intros wf o. simpl. now destruct (String.eqb (w_Path o) "broken").
Defined.

(** Classification of an input with both shapes and of a workflow. *)
Lemma getType_precedence_witness :
  (DNS (Template Demo.both_shapes) <> [] /\
   Logic (Workflow Demo.both_shapes) <> [] /\
   getType Demo.both_shapes = (TemplateInputType, true)) /\
  (Logic (Workflow Demo.workflow) <> [] /\
   getType Demo.workflow = (WorkflowInputType, true)).
Proof.
  split.
  - split; [discriminate | split; [discriminate |]].
    apply (proj1 (getType_precedence (T := Demo.types) Demo.both_shapes)).
    left. discriminate.
  - split; [discriminate |].
    apply (proj2 (getType_precedence (T := Demo.types) Demo.workflow));
      try reflexivity; discriminate.
Defined.

(** The payloads of a template that compiles. *)
Lemma Compile_one_payload_witness :
  Compile_outcome Demo.http_template true "templates/t1.yaml"
  = Returned (Some {| Type_ := TemplateInputType; CompiledTemplate := Some 1;
                      CompiledWorkflow := None |}, None) /\
  getType Demo.http_template = (TemplateInputType, true) /\
  exactly_one_populated
    {| Type_ := TemplateInputType; CompiledTemplate := Some 1;
       CompiledWorkflow := None |} = true.
Proof.
  split; [reflexivity |].
  pose proof (Compile_one_payload (T := Demo.types) (W := Demo.world)
                Demo.http_template true "templates/t1.yaml"
                {| Type_ := TemplateInputType; CompiledTemplate := Some 1;
                   CompiledWorkflow := None |} eq_refl)
    as [(G & _ & _ & _ & X) | (G & _)].
  - split; [exact G |]. apply (proj2 X). discriminate.
  - vm_compute in G. discriminate G.
Defined.

(** The error for a file with two violations. *)
Lemma ReadInput_reports_violations_witness :
  exists first rest err,
    gojsonschema.Errors Demo.two_violations = first :: rest /\
    fst (ReadInput_call "invalid.yaml") = Returned (None, Some err) /\
    Error err =
      fmt.itoa (len (gojsonschema.Errors Demo.two_violations))
      ++ " errors in template: " ++ ResultError_String first ++ ", skipping" /\
    reported_count (Error err) = Some 2 /\
    includes (Error err) (ResultError_String first).
Proof.
  apply (ReadInput_reports_violations (T := Demo.types) (W := Demo.world)
           "invalid.yaml" "invalid.yaml"
           (list_byte_of_string "invalid.yaml") (Some "invalid.yaml")
           Demo.two_violations); reflexivity.
Defined.

(** A template and a workflow whose sub-compiler fails. *)
Lemma Compile_wraps_cause_witness :
  (exists w,
      Compile_outcome Demo.http_template true "broken"
      = Returned (None, Some w) /\
      Error w = "could not compile template: no requests defined" /\
      Cause w = Demo.compile_failure) /\
  (exists w,
      Compile_outcome Demo.workflow true "broken"
      = Returned (None, Some w) /\
      Error w = "could not compile workflow: no requests defined" /\
      Cause w = Demo.compile_failure).
Proof.
  split.
  - destruct (proj1 (Compile_wraps_cause (T := Demo.types) (W := Demo.world) Demo.http_template true "broken"
                       Demo.compile_failure)
                (Template Demo.http_template) None eq_refl eq_refl)
      as (w & H1 & H2 & _ & _ & H5).
    exists w. auto.
  - destruct (proj2 (Compile_wraps_cause (T := Demo.types) (W := Demo.world) Demo.workflow true "broken"
                       Demo.compile_failure)
                (Workflow Demo.workflow) None eq_refl eq_refl)
      as (w & H1 & H2 & _ & _ & H5).
    exists w. auto.
Defined.

(** An input with neither shape. *)
Lemma Compile_rejects_unrecognized_witness :
  snd (getType Demo.neither_shape) = false /\
  fst (getType Demo.neither_shape) <> TemplateInputType /\
  fst (getType Demo.neither_shape) <> WorkflowInputType /\
  Compile_outcome Demo.neither_shape true "n1.yaml" =
    Returned (None, Some (New "invalid template/workflow supplied")) /\
  Compile_log Demo.neither_shape true "n1.yaml" = [].
Proof.
  apply (Compile_rejects_unrecognized (T := Demo.types) (W := Demo.world) Demo.neither_shape true "n1.yaml");
    reflexivity.
Defined.

(** A missing file, an unreadable one, a malformed one and one that
    passes validation and fails to decode. *)
Lemma ReadInput_phase_order_witness :
  ReadInput_call "missing.yaml"
  = (Returned (None, Some Demo.no_such_file), [call_Open "missing.yaml"]) /\
  ReadInput_call "unreadable.yaml"
  = (Returned (None, Some Demo.read_failure),
     [call_Open "unreadable.yaml"; call_ReadAll "unreadable.yaml";
      call_Close "unreadable.yaml"]) /\
  ReadInput_call "malformed.yaml"
  = (Returned (None, Some Demo.parse_failure),
     [call_Open "malformed.yaml"; call_ReadAll "malformed.yaml";
      call_unmarshalForValidation (list_byte_of_string "malformed.yaml");
      call_Close "malformed.yaml"]) /\
  (exists file raw result,
      gojsonschema_Validate schemaLoader (NewGoLoader raw)
      = (Some result, None) /\
      gojsonschema.Valid result = true /\
      snd (ReadInput_call "undecodable.yaml") =
      [call_Open "undecodable.yaml"; call_ReadAll file;
       call_unmarshalForValidation (list_byte_of_string "undecodable.yaml");
       call_Validate (NewGoLoader raw);
       call_yaml_Unmarshal (list_byte_of_string "undecodable.yaml");
       call_Close file]) /\
  fst (ReadInput_call "undecodable.yaml")
  = Returned (None, Some Demo.decode_failure).
Proof.
  split.
  { apply (proj1 (ReadInput_phase_order (T := Demo.types) (W := Demo.world) "missing.yaml") "missing.yaml").
    reflexivity. }
  split.
  { apply (proj1 (proj2 (ReadInput_phase_order (T := Demo.types) (W := Demo.world) "unreadable.yaml"))
             "unreadable.yaml" []); reflexivity. }
  split.
  { apply (proj1 (proj2 (proj2 (ReadInput_phase_order (T := Demo.types) (W := Demo.world) "malformed.yaml")))
             "malformed.yaml" (list_byte_of_string "malformed.yaml") None);
      reflexivity. }
  split.
  { apply (proj1 (proj2 (proj2 (proj2
             (ReadInput_phase_order (T := Demo.types) (W := Demo.world) "undecodable.yaml"))))).
    simpl. tauto. }
  apply (proj2 (proj2 (proj2 (proj2
           (ReadInput_phase_order (T := Demo.types) (W := Demo.world) "undecodable.yaml"))))
           "undecodable.yaml" (list_byte_of_string "undecodable.yaml")
           (Some "undecodable.yaml") Demo.no_violation zero_Input);
    reflexivity.
Defined.

(** The tag and the log of a workflow that compiles. *)
Lemma Compile_tag_consistent_witness :
  Compile_outcome Demo.workflow true "workflows/w1.yaml"
  = Returned (Some {| Type_ := WorkflowInputType; CompiledTemplate := None;
                      CompiledWorkflow := Some 1 |}, None) /\
  (exists c0 calls,
      Compile_log Demo.workflow true "workflows/w1.yaml"
      = new_CompiledInput c0 :: calls /\
      Type_ c0 = WorkflowInputType /\
      forallb is_subcompiler_call calls = true) /\
  (exists wf,
      Workflow_Compile (Workflow Demo.workflow)
        (workflow_options Demo.workflow true "workflows/w1.yaml")
      = (wf, (Some 1, None))).
Proof.
  pose proof (Compile_tag_consistent (T := Demo.types) (W := Demo.world)
                Demo.workflow true "workflows/w1.yaml"
                {| Type_ := WorkflowInputType; CompiledTemplate := None;
                   CompiledWorkflow := Some 1 |} eq_refl)
    as ((c0 & calls & L & H1 & _ & _ & H2 & _) & _ & _ & _ & _ & H3).
  split; [reflexivity |].
  split.
  - exists c0, calls. auto.
  - exact (H3 eq_refl).
Defined.

(** A result with two violations. *)
Lemma ReadInput_first_violation_exists_witness :
  gojsonschema.Valid Demo.two_violations = false /\
  nth_error (gojsonschema.Errors Demo.two_violations) 0 <> None /\
  fst (ReadInput_call "invalid.yaml") <> Panicked IndexOutOfRange.
Proof.
  split; [reflexivity |].
  split.
  - apply (proj1 (ReadInput_first_violation_exists (W := Demo.world))).
    reflexivity.
  - apply (proj2 (ReadInput_first_violation_exists (W := Demo.world))).
Defined.

(** The receiver after a template is compiled, with success and with
    failure. *)
Lemma Compile_preserves_receiver_witness :
  Compile_receiver Demo.http_template true "templates/t1.yaml"
  = Demo.http_template /\
  Compile_receiver Demo.http_template true "broken" = Demo.http_template /\
  Workflow (Compile_receiver Demo.both_shapes true "b1.yaml")
  = Workflow Demo.both_shapes /\
  Compile_receiver Demo.neither_shape true "n1.yaml" = Demo.neither_shape.
Proof.
  pose proof (Compile_preserves_receiver (T := Demo.types) (W := Demo.world)
                Demo.http_template true "templates/t1.yaml")
    as (_ & _ & _ & _ & _ & _ & _ & A & _).
  pose proof (Compile_preserves_receiver (T := Demo.types) (W := Demo.world)
                Demo.http_template true "broken")
    as (_ & _ & _ & _ & _ & _ & _ & _ & _ & B).
  pose proof (Compile_preserves_receiver (T := Demo.types) (W := Demo.world)
                Demo.both_shapes true "b1.yaml")
    as (_ & _ & _ & C & _).
  pose proof (Compile_preserves_receiver (T := Demo.types) (W := Demo.world)
                Demo.neither_shape true "n1.yaml")
    as (_ & _ & _ & _ & D & _).
  split; [| split; [| split]].
  - apply (proj2 A). split; [intros _; reflexivity |].
    intros K. vm_compute in K. discriminate K.
  - apply B. exact Demo_receiver_read_only.
  - apply C. discriminate.
  - apply D. reflexivity.
Defined.

(* ------------------------------------------------------------------ *)
(** ** Further properties of getType and Compile *)

Section CompileFurther.
Context {T : ExternalTypes} {W : Collaborators}.

(** An input classified Workflow has no request and some logic. *)
Lemma getType_workflow_inv (i : Input) :
  getType i = (WorkflowInputType, true) ->
  DNS (Template i) = [] /\ HTTP (Template i) = [] /\
  HTTPRequests (Template i) = [] /\ Logic (Workflow i) <> [].
Proof.
  unfold getType.
  destruct (DNS (Template i)), (HTTP (Template i)),
    (HTTPRequests (Template i)), (Logic (Workflow i));
    simpl; intros H; try discriminate H; repeat split; discriminate.
Qed.

(** X1. The answer of [getType] tells exactly which collections are empty:
    Template when and only when one of the three request collections is
    non-empty, Workflow when and only when the three are empty and the logic
    collection is not, failure when and only when all four are empty. *)
Theorem getType_exact (i : Input) :
  (getType i = (TemplateInputType, true) <->
   DNS (Template i) <> [] \/ HTTP (Template i) <> [] \/
   HTTPRequests (Template i) <> []) /\
  (getType i = (WorkflowInputType, true) <->
   DNS (Template i) = [] /\ HTTP (Template i) = [] /\
   HTTPRequests (Template i) = [] /\ Logic (Workflow i) <> []) /\
  (getType i = (-1, false) <->
   DNS (Template i) = [] /\ HTTP (Template i) = [] /\
   HTTPRequests (Template i) = [] /\ Logic (Workflow i) = []).
Proof.
  unfold getType.
  destruct (DNS (Template i)) as [|d ds], (HTTP (Template i)) as [|h hs],
    (HTTPRequests (Template i)) as [|r rs], (Logic (Workflow i)) as [|l ls];
    simpl; repeat split; intros;
    repeat match goal with
           | H : _ /\ _ |- _ => destruct H
           | H : _ \/ _ |- _ => destruct H
           end;
    try discriminate; try congruence; auto;
    try (left; discriminate);
    try (right; left; discriminate);
    try (right; right; discriminate).
Qed.

(** X2. [Compile] returns a wrapper exactly when the input is classified
    and the sub-compiler of its kind returns no error; the wrapper then
    holds the classified type and, untouched, the payload that sub-compiler
    returned. *)
Theorem Compile_success_iff (i : Input) catalog path (c : CompiledInput) :
  Compile_outcome i catalog path = Returned (Some c, None) <->
  (getType i = (TemplateInputType, true) /\
   exists tpl ct,
     Template_Compile (Template i) (template_options i catalog path)
     = (tpl, (ct, None)) /\
     c = {| Type_ := TemplateInputType; CompiledTemplate := ct;
            CompiledWorkflow := None |}) \/
  (getType i = (WorkflowInputType, true) /\
   exists wf cw,
     Workflow_Compile (Workflow i) (workflow_options i catalog path)
     = (wf, (cw, None)) /\
     c = {| Type_ := WorkflowInputType; CompiledTemplate := None;
            CompiledWorkflow := cw |}).
Proof.
  split.
  - intros H.
    destruct (Compile_success_inv i catalog path c H)
      as [(G & E & _) | (G & E & _)]; [left | right]; auto.
  - unfold Compile_outcome.
    intros [(G & tpl & ct & E & ->) | (G & wf & cw & E & ->)].
    + now rewrite (Compile_call_template i catalog path G), E.
    + now rewrite (Compile_call_workflow i catalog path G), E.
Qed.

(** X3. [Compile] calls at most one sub-compiler, once.  The template
    sub-compiler is called exactly when the input is classified Template,
    the workflow sub-compiler exactly when it is classified Workflow, so
    never when a request collection is non-empty.  The options carry the
    receiver's [ID] and [Info], the given path, and the catalogue as
    resolver, and for a workflow as compiler too. *)
Theorem Compile_dispatch (i : Input) catalog path :
  (count_calls is_subcompiler_call (Compile_log i catalog path) <= 1)%nat /\
  (forall o,
      In (call_Template_Compile o) (Compile_log i catalog path) <->
      getType i = (TemplateInputType, true) /\
      o = {| t_ID := ID i; t_Info := Info i; t_Path := path;
             t_Resolver := catalog |}) /\
  (forall o,
      In (call_Workflow_Compile o) (Compile_log i catalog path) <->
      getType i = (WorkflowInputType, true) /\
      o = {| w_ID := ID i; w_Info := Info i; w_Path := path;
             w_Resolver := catalog; w_Compiler := catalog |}) /\
  (forall o,
      In (call_Workflow_Compile o) (Compile_log i catalog path) ->
      DNS (Template i) = [] /\ HTTP (Template i) = [] /\
      HTTPRequests (Template i) = []).
Proof.
  assert (K : forall o,
             In (call_Workflow_Compile o) (Compile_log i catalog path) <->
             getType i = (WorkflowInputType, true) /\
             o = workflow_options i catalog path).
  { intros o. unfold Compile_log.
    destruct (getType_cases i) as [G | [G | G]].
    - rewrite (Compile_call_template i catalog path G), G.
      destruct (Template_Compile _ _) as [tpl [ct err]]. simpl.
      split; [intros [H | [H | []]]; discriminate | intros [H _]; discriminate].
    - rewrite (Compile_call_workflow i catalog path G), G.
      destruct (Workflow_Compile _ _) as [wf [cw err]]. simpl.
      split.
      + intros [H | [H | []]]; [discriminate |]. split; congruence.
      + intros [_ ->]. auto.
    - rewrite (Compile_call_unclassified i catalog path G), G. simpl.
      split; [intros [] | intros [H _]; discriminate]. }
  split; [| split; [| split]].
  - unfold Compile_log, count_calls.
    destruct (getType_cases i) as [G | [G | G]].
    + rewrite (Compile_call_template i catalog path G).
      destruct (Template_Compile _ _) as [tpl [ct err]]. simpl. lia.
    + rewrite (Compile_call_workflow i catalog path G).
      destruct (Workflow_Compile _ _) as [wf [cw err]]. simpl. lia.
    + rewrite (Compile_call_unclassified i catalog path G). simpl. lia.
  - intros o. unfold Compile_log.
    destruct (getType_cases i) as [G | [G | G]].
    + rewrite (Compile_call_template i catalog path G), G.
      destruct (Template_Compile _ _) as [tpl [ct err]]. simpl.
      split.
      * intros [H | [H | []]]; [discriminate |].
        split; [reflexivity |]. unfold template_options in H. congruence.
      * intros [_ ->]. auto.
    + rewrite (Compile_call_workflow i catalog path G), G.
      destruct (Workflow_Compile _ _) as [wf [cw err]]. simpl.
      split; [intros [H | [H | []]]; discriminate | intros [H _]; discriminate].
    + rewrite (Compile_call_unclassified i catalog path G), G. simpl.
      split; [intros [] | intros [H _]; discriminate].
  - exact K.
  - intros o H. apply K in H. destruct H as [G _].
    apply getType_workflow_inv in G. tauto.
Qed.

(** X4. The part of the input that does not decide its kind has no effect.
    An input with a non-empty request collection compiles to the same
    outcome and log whatever workflow is embedded in it; an input classified
    Workflow compiles to the same outcome and log whatever else its embedded
    template holds. *)
Theorem Compile_ignores_other_part (i : Input) catalog path :
  (DNS (Template i) <> [] \/ HTTP (Template i) <> [] \/
   HTTPRequests (Template i) <> [] ->
   forall wf,
     Compile_outcome (with_Workflow i wf) catalog path
     = Compile_outcome i catalog path /\
     Compile_log (with_Workflow i wf) catalog path
     = Compile_log i catalog path) /\
  (getType i = (WorkflowInputType, true) ->
   forall rest,
     let tpl := {| DNS := []; HTTP := []; HTTPRequests := [];
                   template_rest := rest |} in
     Compile_outcome (with_Template i tpl) catalog path
     = Compile_outcome i catalog path /\
     Compile_log (with_Template i tpl) catalog path
     = Compile_log i catalog path).
Proof.
  split.
  - intros H wf.
    pose proof (getType_template i H) as G.
    pose proof (getType_template (with_Workflow i wf) H) as G'.
    unfold Compile_outcome, Compile_log.
    rewrite (Compile_call_template _ catalog path G),
      (Compile_call_template _ catalog path G').
    unfold template_options. simpl.
    destruct (Template_Compile _ _) as [tpl [ct err]]. auto.
  - intros G rest tpl.
    destruct (getType_workflow_inv i G) as (_ & _ & _ & L).
    assert (G' : getType (with_Template i tpl) = (WorkflowInputType, true)).
    { apply getType_workflow; auto. }
    unfold Compile_outcome, Compile_log.
    rewrite (Compile_call_workflow _ catalog path G),
      (Compile_call_workflow _ catalog path G').
    unfold workflow_options. simpl.
    destruct (Workflow_Compile _ _) as [wf [cw err]]. auto.
Qed.

(** X5. The message of the error of a failed [Compile] tells which kind of
    failure it was: two failed calls whose errors have the same message
    classified their inputs alike.  The classification error has no cause
    to unwrap; an error of a sub-compiler always has one. *)
Theorem Compile_error_tells_kind (i1 i2 : Input) c1 c2 p1 p2 (w1 w2 : error) :
  Compile_outcome i1 c1 p1 = Returned (None, Some w1) ->
  Compile_outcome i2 c2 p2 = Returned (None, Some w2) ->
  (Error w1 = Error w2 -> getType i1 = getType i2) /\
  (Unwrap w1 = None <-> getType i1 = (-1, false)).
Proof.
  unfold Compile_outcome.
  destruct (getType_cases i1) as [G1 | [G1 | G1]];
    destruct (getType_cases i2) as [G2 | [G2 | G2]];
    rewrite G1, G2;
    first [ rewrite (Compile_call_template i1 c1 p1 G1);
            destruct (Template_Compile (Template i1) _) as [t1 [ct1 [e1|]]]
          | rewrite (Compile_call_workflow i1 c1 p1 G1);
            destruct (Workflow_Compile (Workflow i1) _) as [t1 [ct1 [e1|]]]
          | rewrite (Compile_call_unclassified i1 c1 p1 G1) ];
    first [ rewrite (Compile_call_template i2 c2 p2 G2);
            destruct (Template_Compile (Template i2) _) as [t2 [ct2 [e2|]]]
          | rewrite (Compile_call_workflow i2 c2 p2 G2);
            destruct (Workflow_Compile (Workflow i2) _) as [t2 [ct2 [e2|]]]
          | rewrite (Compile_call_unclassified i2 c2 p2 G2) ];
    simpl; intros [= <-] [= <-]; simpl;
    (split; [intros E; try reflexivity; discriminate E
            | split; intros E; try reflexivity; discriminate E]).
Qed.

End CompileFurther.

(* ------------------------------------------------------------------ *)
(** ** Further properties of ReadInput *)

Section ReadInputFurther.
Context {T : ExternalTypes} {W : Collaborators}.

(** Case analysis over the exits of [ReadInput path]: in each case [E] is
    the equation of the call and [H1], [H2], ... say what the collaborators
    returned. *)
Ltac ReadInput_exits path :=
  destruct (os_Open path) as [xfile [e1|]] eqn:H1;
  [ pose proof (ReadInput_open_fails _ _ _ H1) as E
  | destruct (ioutil_ReadAll xfile) as [xdata [e2|]] eqn:H2;
    [ pose proof (ReadInput_read_fails _ _ _ _ H1 H2) as E
    | destruct (unmarshalForValidation xdata None) as [xraw [e3|]] eqn:H3;
      [ pose proof (ReadInput_parse_fails _ _ _ _ _ H1 H2 H3) as E
      | destruct (gojsonschema_Validate schemaLoader (NewGoLoader xraw))
          as [xresult [e4|]] eqn:H4;
        [ pose proof (ReadInput_validate_fails _ _ _ _ _ _ H1 H2 H3 H4) as E
        | destruct xresult as [xresult|];
          [ destruct (gojsonschema.Valid xresult) eqn:H5;
            [ destruct (yaml_Unmarshal xdata zero_Input) as [xinput xerr] eqn:H6;
              pose proof (ReadInput_valid _ _ _ _ _ _ _ H1 H2 H3 H4 H5 H6) as E
            | destruct (invalid_has_first xresult H5) as (xfirst & xrest & H6);
              pose proof (ReadInput_invalid _ _ _ _ _ _ _ H1 H2 H3 H4 H5 H6)
                as E ]
          | pose proof (ReadInput_nil_result _ _ _ _ H1 H2 H3 H4) as E ] ] ] ] ].

(** X6. [ReadInput] returns an [Input] exactly when the file opens and
    reads, the bytes parse, the validator returns a valid result, and the
    decoder returns no error; the [Input] is then what the decoder made of
    those bytes, starting from the zero [Input]. *)
Theorem ReadInput_success_iff path (input : Input) :
  fst (ReadInput_call path) = Returned (Some input, None) <->
  exists file data raw result,
    os_Open path = (file, None) /\
    ioutil_ReadAll file = (data, None) /\
    unmarshalForValidation data None = (raw, None) /\
    gojsonschema_Validate schemaLoader (NewGoLoader raw) = (Some result, None) /\
    gojsonschema.Valid result = true /\
    yaml_Unmarshal data zero_Input = (input, None).
Proof.
  split.
  - ReadInput_exits path; rewrite E; simpl; intros K; try discriminate K.
    destruct xerr as [e|]; simpl in K; [discriminate K |].
    injection K as ->. exists xfile, xdata, xraw, xresult. repeat split; auto.
  - intros (file & data & raw & result & H1 & H2 & H3 & H4 & H5 & H6).
    now rewrite (ReadInput_valid _ _ _ _ _ _ _ H1 H2 H3 H4 H5 H6).
Qed.

(** X7. A call of [ReadInput] ends in one of three ways: it returns an
    [Input] and a nil error; it returns a nil [Input] and an error; or it
    panics on a nil pointer, which happens exactly when the earlier phases
    passed and the validator returned a nil result with a nil error.  It
    never returns both or neither. *)
Theorem ReadInput_outcome_shape path :
  ((exists input, fst (ReadInput_call path) = Returned (Some input, None)) \/
   (exists e, fst (ReadInput_call path) = Returned (None, Some e)) \/
   fst (ReadInput_call path) = Panicked NilDereference) /\
  (fst (ReadInput_call path) = Panicked NilDereference <->
   exists file data raw,
     os_Open path = (file, None) /\
     ioutil_ReadAll file = (data, None) /\
     unmarshalForValidation data None = (raw, None) /\
     gojsonschema_Validate schemaLoader (NewGoLoader raw) = (None, None)).
Proof.
  split.
  - ReadInput_exits path; rewrite E; simpl;
      try match goal with |- context [nonnil ?x] => destruct x end; simpl;
      first [ left; eexists; reflexivity
            | right; left; eexists; reflexivity
            | right; right; reflexivity ].
  - split.
    + ReadInput_exits path; rewrite E; simpl; intros K; try discriminate K.
      exists xfile, xdata, xraw. repeat split; auto.
    + intros (file & data & raw & H1 & H2 & H3 & H4).
      now rewrite (ReadInput_nil_result _ _ _ _ H1 H2 H3 H4).
Qed.

(** X8. The file is closed on every exit.  When the open fails nothing is
    closed and nothing else is called.  When the open succeeds the file it
    returned is closed exactly once, as the last call, whether [ReadInput]
    returns a result, returns an error or panics. *)
Theorem ReadInput_closes_file path file err :
  os_Open path = (file, err) ->
  (err <> None -> snd (ReadInput_call path) = [call_Open path]) /\
  (err = None ->
   last (snd (ReadInput_call path)) (call_Open path) = call_Close file /\
   count_calls is_close_call (snd (ReadInput_call path)) = 1%nat /\
   hd_error (snd (ReadInput_call path)) = Some (call_Open path)).
Proof.
  intros O. split.
  - intros N. destruct err as [e|]; [| congruence].
    now rewrite (ReadInput_open_fails _ _ _ O).
  - intros ->.
    ReadInput_exits path; rewrite E; injection O as <-;
      try discriminate; repeat split.
Qed.

(** X9. Each collaborator is called at most once in a call of
    [ReadInput], the open exactly once and on the given path, and nothing
    else is called.  Each phase works on what the phase before produced: a
    read is made only on the file the open returned; a parse only on the
    bytes the read returned; a validation only on the loader of what the
    parse produced; a decode only on the bytes read, after a valid result;
    and the file closed is the file the open returned. *)
Theorem ReadInput_data_flow path :
  (count_calls is_open_call (snd (ReadInput_call path)) = 1 /\
   count_calls is_read_call (snd (ReadInput_call path)) <= 1 /\
   count_calls is_parse_call (snd (ReadInput_call path)) <= 1 /\
   count_calls is_validate_call (snd (ReadInput_call path)) <= 1 /\
   count_calls is_decode_call (snd (ReadInput_call path)) <= 1 /\
   count_calls is_close_call (snd (ReadInput_call path)) <= 1)%nat /\
  (forall ev,
      In ev (snd (ReadInput_call path)) ->
      is_open_call ev || is_read_call ev || is_parse_call ev
      || is_validate_call ev || is_decode_call ev || is_close_call ev
      = true) /\
  (forall p, In (call_Open p) (snd (ReadInput_call path)) -> p = path) /\
  (forall f,
      In (call_ReadAll f) (snd (ReadInput_call path)) ->
      os_Open path = (f, None)) /\
  (forall d,
      In (call_unmarshalForValidation d) (snd (ReadInput_call path)) ->
      exists f, os_Open path = (f, None) /\ ioutil_ReadAll f = (d, None)) /\
  (forall doc,
      In (call_Validate doc) (snd (ReadInput_call path)) ->
      exists f d raw,
        os_Open path = (f, None) /\ ioutil_ReadAll f = (d, None) /\
        unmarshalForValidation d None = (raw, None) /\
        doc = NewGoLoader raw) /\
  (forall d,
      In (call_yaml_Unmarshal d) (snd (ReadInput_call path)) ->
      exists f raw result,
        os_Open path = (f, None) /\ ioutil_ReadAll f = (d, None) /\
        unmarshalForValidation d None = (raw, None) /\
        gojsonschema_Validate schemaLoader (NewGoLoader raw)
        = (Some result, None) /\
        gojsonschema.Valid result = true) /\
  (forall f,
      In (call_Close f) (snd (ReadInput_call path)) ->
      os_Open path = (f, None)) /\
  NoDup (snd (ReadInput_call path)).
Proof.
  split; [| split; [| split; [| split; [| split; [| split; [| split;
    [| split]]]]]]].
  - unfold count_calls.
    ReadInput_exits path; rewrite E; simpl; repeat split; lia.
  - intros ev. ReadInput_exits path; rewrite E; simpl;
      intuition (subst; reflexivity).
  - intros p. ReadInput_exits path; rewrite E; simpl;
      intuition (try discriminate; congruence).
  - intros f. ReadInput_exits path; rewrite E; simpl;
      intuition (try discriminate; congruence).
  - intros d. ReadInput_exits path; rewrite E; simpl;
      intuition (try discriminate);
      match goal with
      | K : call_unmarshalForValidation _ = call_unmarshalForValidation _ |- _ =>
          injection K as <-; exists xfile; repeat split; auto
      end.
  - intros doc. ReadInput_exits path; rewrite E; simpl;
      intuition (try discriminate);
      match goal with
      | K : call_Validate _ = call_Validate _ |- _ =>
          injection K as <-; exists xfile, xdata, xraw; repeat split; auto
      end.
  - intros d. ReadInput_exits path; rewrite E; simpl;
      intuition (try discriminate);
      match goal with
      | K : call_yaml_Unmarshal _ = call_yaml_Unmarshal _ |- _ =>
          injection K as <-; exists xfile, xraw, xresult; repeat split; auto
      end.
  - intros f. ReadInput_exits path; rewrite E; simpl;
      intuition (try discriminate; congruence).
  - ReadInput_exits path; rewrite E; simpl;
      repeat (constructor; [simpl; intuition discriminate |]);
      constructor.
Qed.

(** X10. When the validator itself fails, its error is returned unchanged
    with a nil [Input], the decoder is not called, and the file is
    closed. *)
Theorem ReadInput_validator_error path file data raw result e :
  os_Open path = (file, None) ->
  ioutil_ReadAll file = (data, None) ->
  unmarshalForValidation data None = (raw, None) ->
  gojsonschema_Validate schemaLoader (NewGoLoader raw) = (result, Some e) ->
  fst (ReadInput_call path) = Returned (None, Some e) /\
  (forall d, ~ In (call_yaml_Unmarshal d) (snd (ReadInput_call path))) /\
  In (call_Close file) (snd (ReadInput_call path)).
Proof.
  intros H1 H2 H3 H4.
  rewrite (ReadInput_validate_fails _ _ _ _ _ _ H1 H2 H3 H4). simpl.
  split; [reflexivity |]. split; [| tauto].
  intros d [K | [K | [K | [K | [K | []]]]]]; discriminate.
Qed.

(** X11. [ReadInput] returns a nil [Input] and the error [e] exactly when
    [e] is the error of the first collaborator that failed on this path
    (the open, the read of the opened file, the parse of the bytes read,
    the validation of what was parsed, or the decoding of the bytes read
    after a valid result), passed on as it is, or the summary built from
    the invalid result of that validation.  The summary is a new error with
    no cause, and the count at its head is the number of violations, at
    least one. *)
Theorem ReadInput_error_origin path (e : error) :
  fst (ReadInput_call path) = Returned (None, Some e) <->
  (exists f, os_Open path = (f, Some e)) \/
  (exists f d,
      os_Open path = (f, None) /\ ioutil_ReadAll f = (d, Some e)) \/
  (exists f d raw,
      os_Open path = (f, None) /\ ioutil_ReadAll f = (d, None) /\
      unmarshalForValidation d None = (raw, Some e)) \/
  (exists f d raw r,
      os_Open path = (f, None) /\ ioutil_ReadAll f = (d, None) /\
      unmarshalForValidation d None = (raw, None) /\
      gojsonschema_Validate schemaLoader (NewGoLoader raw) = (r, Some e)) \/
  (exists f d raw result i,
      os_Open path = (f, None) /\ ioutil_ReadAll f = (d, None) /\
      unmarshalForValidation d None = (raw, None) /\
      gojsonschema_Validate schemaLoader (NewGoLoader raw)
      = (Some result, None) /\
      gojsonschema.Valid result = true /\
      yaml_Unmarshal d zero_Input = (i, Some e)) \/
  (exists f d raw result first rest,
      os_Open path = (f, None) /\ ioutil_ReadAll f = (d, None) /\
      unmarshalForValidation d None = (raw, None) /\
      gojsonschema_Validate schemaLoader (NewGoLoader raw)
      = (Some result, None) /\
      gojsonschema.Valid result = false /\
      gojsonschema.Errors result = first :: rest /\
      e = Errorf "%d errors in template: %s, skipping"
            [fmt.Int (len (gojsonschema.Errors result));
             fmt.Stringer (ResultError_String first)] /\
      1 <= len (gojsonschema.Errors result) /\
      reported_count (Error e) = Some (len (gojsonschema.Errors result)) /\
      Unwrap e = None).
Proof.
  split.
  - ReadInput_exits path; rewrite E; simpl; intros K; try discriminate K.
    + injection K as <-. left. eauto.
    + injection K as <-. right. left. eauto.
    + injection K as <-. right. right. left. exists xfile, xdata, xraw. auto.
    + injection K as <-. right. right. right. left.
      exists xfile, xdata, xraw, xresult. auto.
    + destruct xerr as [e'|]; simpl in K; [| discriminate K].
      injection K as <-. right. right. right. right. left.
      exists xfile, xdata, xraw, xresult, xinput. repeat split; auto.
    + injection K as <-. right. right. right. right. right.
      exists xfile, xdata, xraw, xresult, xfirst, xrest.
      repeat (split; [assumption || reflexivity |]).
      split; [rewrite H6; unfold len; simpl; lia |].
      split; [| reflexivity].
      unfold Errorf. rewrite Sprintf_errors_in_template. simpl Error.
      apply (reported_count_itoa _ _ (len_nonneg _)).
  - intros [(f & H1) | [(f & d & H1 & H2) | [(f & d & raw & H1 & H2 & H3)
      | [(f & d & raw & r & H1 & H2 & H3 & H4)
      | [(f & d & raw & result & i & H1 & H2 & H3 & H4 & H5 & H6)
      | (f & d & raw & result & first & rest
         & H1 & H2 & H3 & H4 & H5 & H6 & -> & _)]]]]].
    + now rewrite (ReadInput_open_fails _ _ _ H1).
    + now rewrite (ReadInput_read_fails _ _ _ _ H1 H2).
    + now rewrite (ReadInput_parse_fails _ _ _ _ _ H1 H2 H3).
    + now rewrite (ReadInput_validate_fails _ _ _ _ _ _ H1 H2 H3 H4).
    + now rewrite (ReadInput_valid _ _ _ _ _ _ _ H1 H2 H3 H4 H5 H6).
    + now rewrite (ReadInput_invalid _ _ _ _ _ _ _ H1 H2 H3 H4 H5 H6).
Qed.

End ReadInputFurther.

(* ------------------------------------------------------------------ *)
(** ** The further properties at work in the concrete world *)

(** The answers of [getType] on three inputs, read in both directions. *)
Lemma getType_exact_witness :
  getType Demo.both_shapes = (TemplateInputType, true) /\
  getType Demo.neither_shape = (-1, false) /\
  (DNS (Template Demo.workflow) = [] /\ HTTP (Template Demo.workflow) = [] /\
   HTTPRequests (Template Demo.workflow) = [] /\
   Logic (Workflow Demo.workflow) <> []).
Proof.
  split; [| split].
  - apply (proj2 (proj1 (getType_exact (T := Demo.types) Demo.both_shapes))).
    left. discriminate.
  - apply (proj2 (proj2 (proj2
      (getType_exact (T := Demo.types) Demo.neither_shape)))).
    repeat split.
  - apply (proj1 (proj1 (proj2
      (getType_exact (T := Demo.types) Demo.workflow)))).
    reflexivity.
Defined.

(** A template whose sub-compiler succeeds. *)
Lemma Compile_success_iff_witness :
  Compile_outcome Demo.http_template true "templates/t1.yaml"
  = Returned (Some {| Type_ := TemplateInputType; CompiledTemplate := Some 1;
                      CompiledWorkflow := None |}, None).
Proof.
  apply (proj2 (Compile_success_iff (T := Demo.types) (W := Demo.world)
                  Demo.http_template true "templates/t1.yaml" _)).
  left. split; [reflexivity |].
  exists (Template Demo.http_template), (Some 1). split; reflexivity.
Defined.

(** The calls made for a workflow. *)
Lemma Compile_dispatch_witness :
  (count_calls is_subcompiler_call
     (Compile_log Demo.workflow true "workflows/w1.yaml") <= 1)%nat /\
  In (call_Workflow_Compile
        {| w_ID := "w1"; w_Info := "x"; w_Path := "workflows/w1.yaml";
           w_Resolver := true; w_Compiler := true |})
     (Compile_log Demo.workflow true "workflows/w1.yaml") /\
  ~ In (call_Template_Compile
          {| t_ID := "w1"; t_Info := "x"; t_Path := "workflows/w1.yaml";
             t_Resolver := true |})
       (Compile_log Demo.workflow true "workflows/w1.yaml").
Proof.
  pose proof (Compile_dispatch (T := Demo.types) (W := Demo.world)
                Demo.workflow true "workflows/w1.yaml") as (H1 & H2 & H3 & _).
  split; [exact H1 |]. split.
  - apply (proj2 (H3 _)). split; reflexivity.
  - intros K. apply (proj1 (H2 _)) in K. destruct K as [K _]. discriminate K.
Defined.

(** A template compiled with and without a workflow embedded beside it. *)
Lemma Compile_ignores_other_part_witness :
  HTTP (Template Demo.http_template) <> [] /\
  Compile_outcome
    (with_Workflow Demo.http_template (Workflow Demo.workflow))
    true "templates/t1.yaml"
  = Compile_outcome Demo.http_template true "templates/t1.yaml" /\
  Compile_log
    (with_Workflow Demo.http_template (Workflow Demo.workflow))
    true "templates/t1.yaml"
  = Compile_log Demo.http_template true "templates/t1.yaml".
Proof.
  split; [discriminate |].
  apply (proj1 (Compile_ignores_other_part (T := Demo.types) (W := Demo.world)
                  Demo.http_template true "templates/t1.yaml")).
  right. left. discriminate.
Defined.

(** A failed template, a failed workflow and an unclassified input. *)
Lemma Compile_error_tells_kind_witness :
  (Error (withStack (withMessage Demo.compile_failure
                       "could not compile template"))
   = Error (New "invalid template/workflow supplied") ->
   getType Demo.http_template = getType Demo.neither_shape) /\
  (Unwrap (withStack (withMessage Demo.compile_failure
                        "could not compile template")) = None <->
   getType Demo.http_template = (-1, false)).
Proof.
  apply (Compile_error_tells_kind (T := Demo.types) (W := Demo.world)
           Demo.http_template Demo.neither_shape true true "broken" "n1.yaml");
    reflexivity.
Defined.

(** A file that passes every phase. *)
Lemma ReadInput_success_iff_witness :
  fst (ReadInput_call "workflow.yaml") = Returned (Some Demo.workflow, None).
Proof.
  apply (proj2 (ReadInput_success_iff (T := Demo.types) (W := Demo.world)
                  "workflow.yaml" Demo.workflow)).
  exists "workflow.yaml", (list_byte_of_string "workflow.yaml"),
    (Some "workflow.yaml"), Demo.no_violation.
  repeat split.
Defined.

(** The end of the call for an invalid file. *)
Lemma ReadInput_outcome_shape_witness :
  (exists input,
      fst (ReadInput_call "invalid.yaml") = Returned (Some input, None)) \/
  (exists e, fst (ReadInput_call "invalid.yaml") = Returned (None, Some e)) \/
  fst (ReadInput_call "invalid.yaml") = Panicked NilDereference.
Proof.
  apply (proj1 (ReadInput_outcome_shape (T := Demo.types) (W := Demo.world)
                  "invalid.yaml")).
Defined.

(** The file of an invalid document is closed, last and once. *)
Lemma ReadInput_closes_file_witness :
  last (snd (ReadInput_call "invalid.yaml")) (call_Open "invalid.yaml")
  = call_Close "invalid.yaml" /\
  count_calls is_close_call (snd (ReadInput_call "invalid.yaml")) = 1%nat /\
  hd_error (snd (ReadInput_call "invalid.yaml"))
  = Some (call_Open "invalid.yaml").
Proof.
  apply (proj2 (ReadInput_closes_file (T := Demo.types) (W := Demo.world)
                  "invalid.yaml" "invalid.yaml" None eq_refl)).
  reflexivity.
Defined.

(** The calls made for a file that passes every phase. *)
Lemma ReadInput_data_flow_witness :
  count_calls is_open_call (snd (ReadInput_call "workflow.yaml")) = 1%nat /\
  (count_calls is_decode_call (snd (ReadInput_call "workflow.yaml")) <= 1)%nat /\
  (In (call_unmarshalForValidation (list_byte_of_string "workflow.yaml"))
      (snd (ReadInput_call "workflow.yaml")) /\
   exists f,
     os_Open "workflow.yaml" = (f, None) /\
     ioutil_ReadAll f = (list_byte_of_string "workflow.yaml", None)) /\
  (In (call_Close "workflow.yaml") (snd (ReadInput_call "workflow.yaml")) /\
   os_Open "workflow.yaml" = ("workflow.yaml", None)).
Proof.
  pose proof (ReadInput_data_flow (T := Demo.types) (W := Demo.world)
                "workflow.yaml")
    as ((C1 & _ & _ & _ & C5 & _) & _ & _ & _ & H5 & _ & _ & H8 & _).
  split; [exact C1 |]. split; [exact C5 |].
  assert (K : In (call_unmarshalForValidation
                    (list_byte_of_string "workflow.yaml"))
                 (snd (ReadInput_call "workflow.yaml"))).
  { simpl. tauto. }
  assert (L : In (call_Close "workflow.yaml")
                 (snd (ReadInput_call "workflow.yaml"))).
  { simpl. tauto. }
  split; [split; [exact K | exact (H5 _ K)] |].
  split; [exact L | exact (H8 _ L)].
Defined.

(** A schema that cannot be loaded. *)
Lemma ReadInput_validator_error_witness :
  fst (ReadInput_call (W := DemoBrokenSchema.world) "t1.yaml")
  = Returned (None, Some DemoBrokenSchema.schema_failure) /\
  (forall d,
      ~ In (call_yaml_Unmarshal d)
           (snd (ReadInput_call (W := DemoBrokenSchema.world) "t1.yaml"))) /\
  In (call_Close "t1.yaml")
     (snd (ReadInput_call (W := DemoBrokenSchema.world) "t1.yaml")).
Proof.
  apply (ReadInput_validator_error
           (T := Demo.types) (W := DemoBrokenSchema.world)
           "t1.yaml" "t1.yaml" (list_byte_of_string "t1.yaml")
           (Some "t1.yaml") None DemoBrokenSchema.schema_failure);
    reflexivity.
Defined.

(** The error for a file with two violations and the error for a file that
    does not decode. *)
Lemma ReadInput_error_origin_witness :
  fst (ReadInput_call "invalid.yaml")
  = Returned
      (None,
       Some (fundamental
               "2 errors in template: (root): id is required, skipping")) /\
  fst (ReadInput_call "undecodable.yaml")
  = Returned (None, Some Demo.decode_failure).
Proof.
  split.
  - apply (proj2 (ReadInput_error_origin (T := Demo.types) (W := Demo.world)
                    "invalid.yaml" _)).
    right. right. right. right. right.
    exists "invalid.yaml", (list_byte_of_string "invalid.yaml"),
      (Some "invalid.yaml"), Demo.two_violations,
      "(root): id is required", ["(root): info is required"].
    repeat split. vm_compute. discriminate.
  - apply (proj2 (ReadInput_error_origin (T := Demo.types) (W := Demo.world)
                    "undecodable.yaml" Demo.decode_failure)).
    right. right. right. right. left.
    exists "undecodable.yaml", (list_byte_of_string "undecodable.yaml"),
      (Some "undecodable.yaml"), Demo.no_violation, zero_Input.
    repeat split.
Defined.

(* ------------------------------------------------------------------ *)
(** ** What depends on the sub-compilers *)

(** With a template sub-compiler that returns a nil payload and a nil
    error, [Compile] succeeds with neither payload set. *)
Lemma Compile_one_payload_counterexample :
  exists c,
    Compile_outcome (W := DemoNilPayload.world)
      Demo.http_template true "templates/t1.yaml"
    = Returned (Some c, None) /\
    CompiledTemplate c = None /\ CompiledWorkflow c = None /\
    exactly_one_populated c = false.
Proof.
  eexists. split; [reflexivity |]. repeat split.
Qed.

(** With a workflow sub-compiler that returns a nil payload and a nil
    error, [Compile] succeeds with the tag Workflow and no compiled
    workflow: the tag does not tell that the payload is set. *)
Lemma Compile_tag_consistent_counterexample :
  exists c,
    Compile_outcome (W := DemoNilPayload.world)
      Demo.workflow true "workflows/w1.yaml"
    = Returned (Some c, None) /\
    Type_ c = WorkflowInputType /\
    ~ (Type_ c = WorkflowInputType <-> CompiledWorkflow c <> None).
Proof.
  eexists. split; [reflexivity |]. split; [reflexivity |].
  simpl. intros [K _]. now apply (K eq_refl).
Qed.

(** With the same sub-compilers [Compile] returns, with a nil error, a
    wrapper that holds the tag alone: a result that is populated in part. *)
Lemma Compile_all_or_nothing_counterexample :
  Compile_outcome (W := DemoNilPayload.world) Demo.both_shapes true "b1.yaml"
  = Returned (Some {| Type_ := TemplateInputType; CompiledTemplate := None;
                      CompiledWorkflow := None |}, None).
Proof. reflexivity. Qed.

(** With a template sub-compiler that consumes the requests of its
    receiver, the input is not the same after [Compile]: its requests are
    gone, it is no longer classified, and compiling it again fails. *)
Lemma Compile_preserves_receiver_counterexample :
  Compile_outcome (W := DemoConsumingCompiler.world)
    Demo.http_template true "templates/t1.yaml"
  = Returned (Some {| Type_ := TemplateInputType; CompiledTemplate := Some 1;
                      CompiledWorkflow := None |}, None) /\
  Compile_receiver (W := DemoConsumingCompiler.world)
    Demo.http_template true "templates/t1.yaml"
  <> Demo.http_template /\
  HTTP (Template (Compile_receiver (W := DemoConsumingCompiler.world)
                    Demo.http_template true "templates/t1.yaml")) = [] /\
  getType Demo.http_template = (TemplateInputType, true) /\
  getType (Compile_receiver (W := DemoConsumingCompiler.world)
             Demo.http_template true "templates/t1.yaml") = (-1, false) /\
  Compile_outcome (W := DemoConsumingCompiler.world)
    (Compile_receiver (W := DemoConsumingCompiler.world)
       Demo.http_template true "templates/t1.yaml")
    true "templates/t1.yaml"
  = Returned (None, Some (New "invalid template/workflow supplied")).
Proof.
  split; [reflexivity |]. split; [discriminate |]. repeat split.
Qed.
